(** * The templating reconciler: Reconcile and Apply

    A shallow embedding of [pkg/controllers/templating_reconciler.go].

    Go values are embedded as follows.
    - A Go [error] is a value of [error]; the nil error is [None : option error].
    - [time.Duration] is a [Z] counting nanoseconds.
    - [unstructured.Unstructured] objects (both the parent and the child
      resources) are records holding what the reconciler reads from them: the
      identity, the deletion marker, the status conditions and the remaining
      JSON members.
    - The store client [client.Client] is an interface: a type class over the
      state of the store.  Every call threads that state and emits an event
      carrying the call and its outcome, so that the calls made during a
      cycle can be counted.
    - Objects are values.  In Go the client fills in the object it is given,
      and [Create] and [Patch] write the answer of the store back into it;
      here [Get] returns the object it filled in, and a child handed to
      [Create] is read again by the reconciler only after a failed call, which
      leaves it as it was.  The templating engine and the patchers read the
      parent and do not change it.
    - The context deadline ([reconcileTimeout]) is not represented: a store
      call that times out is a store call that returns an error. *)

From Stdlib Require Import String List ZArith Lia Bool Arith.
Import ListNotations.
Open Scope string_scope.
Open Scope list_scope.
Open Scope Z_scope.

Set Implicit Arguments.
Set Warnings "-register-all".

(** ** Errors *)

(** [metav1.StatusReason], the reasons an API status error can carry. *)
Inductive StatusReason :=
| StatusReasonUnknown
| StatusReasonNotFound
| StatusReasonAlreadyExists
| StatusReasonConflict
| StatusReasonInvalid
| StatusReasonTimeout.

(** The error values the reconciler sees: API status errors returned by the
    store, plain errors, and errors annotated by [errors.Wrap]. *)
Inductive error :=
| StatusError (reason : StatusReason) (message : string)
| errorString (s : string)
| withMessage (cause : error) (msg : string).

(** [err.Error()] *)
Fixpoint Error (e : error) : string :=
  match e with
  | StatusError _ m => m
  | errorString s => s
  | withMessage c m => (m ++ ": " ++ Error c)%string
  end.

(** [errors.Wrap(err, message)]: nil stays nil. *)
Definition Wrap (err : option error) (message : string) : option error :=
  match err with
  | None => None
  | Some e => Some (withMessage e message)
  end.

(** [kerrors.ReasonForError]: a type switch on the error itself. *)
Definition ReasonForError (err : option error) : StatusReason :=
  match err with
  | Some (StatusError r _) => r
  | _ => StatusReasonUnknown
  end.

(** [kerrors.IsNotFound] *)
Definition IsNotFound (err : option error) : bool :=
  match ReasonForError err with
  | StatusReasonNotFound => true
  | _ => false
  end.

(** [client.IgnoreNotFound] *)
Definition IgnoreNotFound (err : option error) : option error :=
  if IsNotFound err then None else err.

(** ** Constants of the package *)

Definition Second : Z := 1000000000.
Definition Minute : Z := 60 * Second.

Definition reconcileTimeout : Z := 1 * Minute.
Definition defaultShortWait : Z := 30 * Second.
Definition defaultLongWait : Z := 1 * Minute.

Definition errUpdateResourceStatus := "could not update status of the parent resource".
Definition errGetResource := "could not get the parent resource".
Definition errTemplatingOperation := "templating operation failed".
Definition errChildResourcePatchers := "child resource patchers failed".
Definition errApply := "apply failed".
Definition errCreateChildResource := "could not create child resource".
Definition errGetChildResource := "could not get child resource".

(** ** Objects *)

(** The content of an unstructured object: JSON values, plus the numbers
    that [encoding/json] refuses to encode (NaN and the infinities). *)
Inductive Value :=
| VNull
| VBool (b : bool)
| VNum (n : Z)
| VStr (s : string)
| VArr (items : list Value)
| VObj (members : list (string * Value))
| VUnsupported.

Record GroupVersionKind := mkGVK {
  Group : string;
  Version : string;
  Kind : string
}.

(** [schema.GroupVersionKind.String] *)
Definition GVKString (gvk : GroupVersionKind) : string :=
  (Group gvk ++ "/" ++ Version gvk ++ ", Kind=" ++ Kind gvk)%string.

Record NamespacedName := mkNamespacedName {
  Namespace : string;
  Name : string
}.

(** [v1alpha1.Condition], without [LastTransitionTime] (wall-clock time). *)
Inductive ConditionType := TypeReady | TypeSynced.
Inductive ConditionStatus := ConditionTrue | ConditionFalse | ConditionUnknown.
Inductive ConditionReason :=
| ReasonReconcileSuccess
| ReasonReconcileError
| ReasonOther (r : string).

Record Condition := mkCondition {
  Type_ : ConditionType;
  Status : ConditionStatus;
  Reason : ConditionReason;
  Message : string
}.

(** [v1alpha1.ReconcileSuccess()] *)
Definition ReconcileSuccess : Condition :=
  {| Type_ := TypeSynced; Status := ConditionTrue;
     Reason := ReasonReconcileSuccess; Message := "" |}.

(** [v1alpha1.ReconcileError(err)], for a non-nil [err]. *)
Definition ReconcileError (err : error) : Condition :=
  {| Type_ := TypeSynced; Status := ConditionFalse;
     Reason := ReasonReconcileError; Message := Error err |}.

(** What the reconciler reads of an [unstructured.Unstructured]. *)
Record Unstructured := mkUnstructured {
  gvk : GroupVersionKind;
  name : string;
  namespace : string;
  deletionTimestamp : option Z;
  conditions : list Condition;
  fields : list (string * Value)
}.

Definition GetName (o : Unstructured) : string := name o.
Definition GetNamespace (o : Unstructured) : string := namespace o.
Definition GetGroupVersionKind (o : Unstructured) : GroupVersionKind := gvk o.

(** [o.DeepCopyObject()]: objects are values here, a copy is the object. *)
Definition DeepCopyObject (o : Unstructured) : Unstructured := o.

(** [meta.WasDeleted]: the deletion timestamp is set and is not the zero
    time.  Times count from the zero time. *)
Definition WasDeleted (o : Unstructured) : bool :=
  match deletionTimestamp o with
  | None => false
  | Some t => negb (t =? 0)
  end.

(** ** Serialization *)

(** [json.Marshal] produces the wire document of an object, or fails when the
    content holds a value without a JSON encoding.  The byte string is
    represented by the document it encodes. *)
Fixpoint encodable (v : Value) : bool :=
  match v with
  | VUnsupported => false
  | VArr items => forallb encodable items
  | VObj members =>
      (fix go (ms : list (string * Value)) : bool :=
         match ms with
         | [] => true
         | (_, x) :: ms' => encodable x && go ms'
         end) members
  | _ => true
  end.

Record RawJSON := mkRawJSON { document : Unstructured }.

Definition errUnsupportedValue : error := errorString "json: unsupported value".

Definition Marshal (o : Unstructured) : option RawJSON * option error :=
  if encodable (VObj (fields o))
  then (Some (mkRawJSON o), None)
  else (None, Some errUnsupportedValue).

(** ** The store client *)

(** [types.PatchType] and [client.ConstantPatch]. *)
Inductive PatchType :=
| JSONPatchType
| MergePatchType
| StrategicMergePatchType
| ApplyPatchType.

Record Patch := ConstantPatch {
  patchType : PatchType;
  patchData : option RawJSON
}.

(** The methods of [client.Client].  [List] and [DeleteAllOf] take options that
    the reconciler never builds; they carry the object only. *)
Inductive Call :=
| CallGet (key : NamespacedName) (into : Unstructured)
| CallList (into : Unstructured)
| CallCreate (o : Unstructured)
| CallDelete (o : Unstructured)
| CallUpdate (o : Unstructured)
| CallPatch (target : Unstructured) (p : Patch)
| CallDeleteAllOf (o : Unstructured)
| CallStatusUpdate (o : Unstructured)
| CallStatusPatch (o : Unstructured) (p : Patch).

(** What a cycle leaves behind: store calls with their outcome, and log
    lines. *)
Inductive Event :=
| Called (c : Call) (outcome : option error)
| Logged (msg : string).

(** The part of [client.Client] with a behaviour in this development.  [Get]
    returns the object it filled in together with the error.  [PatchObject]
    is the method [Patch], whose name the patch type above has taken, and
    [StatusUpdate] is [Status().Update]. *)
Class Client (S : Type) := {
  Get : NamespacedName -> Unstructured -> S -> (Unstructured * option error) * S;
  Create : Unstructured -> S -> option error * S;
  Delete : Unstructured -> S -> option error * S;
  Update : Unstructured -> S -> option error * S;
  PatchObject : Unstructured -> Patch -> S -> option error * S;
  StatusUpdate : Unstructured -> S -> option error * S
}.

(** [reconcile.Result] *)
Record Result := mkResult {
  Requeue : bool;
  RequeueAfter : Z
}.

(** [ctrl.Request] *)
Record Request := mkRequest { ReqNamespacedName : NamespacedName }.

(** [resource.TemplatingEngine]: one method, [Run]. *)
Definition TemplatingEngine := Unstructured -> list Unstructured * option error.

(** [resource.ChildResourcePatcher]: one method, [Patch]. *)
Definition ChildResourcePatcher :=
  Unstructured -> list Unstructured -> list Unstructured * option error.

Definition ChildResourcePatcherChain := list ChildResourcePatcher.

(** Modelled from the spec: [ChildResourcePatcherChain.Patch], a method of
    package [resource], which is not embedded here.  The chain applies its steps
    strictly in order, passing the previous step's output forward; the first
    error aborts the whole chain and is returned with no partial result. *)
Fixpoint ChainPatch (chain : ChildResourcePatcherChain) (cr : Unstructured)
    (children : list Unstructured) : list Unstructured * option error :=
  match chain with
  | [] => (children, None)
  | f :: rest =>
      match f cr children with
      | (_, Some err) => ([], Some err)
      | (currentList, None) => ChainPatch rest cr currentList
      end
  end.

(** [TemplatingReconciler].  The client is the [Client] instance in scope and
    the logger is the event trace. *)
Record TemplatingReconciler := mkTemplatingReconciler {
  newParentResource : Unstructured;
  resourcePath : string;
  shortWait : Z;
  longWait : Z;
  templatingEngine : TemplatingEngine;
  childResourcePatcher : ChildResourcePatcherChain
}.

Definition TemplatingReconcilerOption := TemplatingReconciler -> TemplatingReconciler.

Definition WithChildResourcePatcher (op : list ChildResourcePatcher) : TemplatingReconcilerOption :=
  fun r => {| newParentResource := newParentResource r; resourcePath := resourcePath r;
              shortWait := shortWait r; longWait := longWait r;
              templatingEngine := templatingEngine r; childResourcePatcher := op |}.

Definition WithTemplatingEngine (eng : TemplatingEngine) : TemplatingReconcilerOption :=
  fun r => {| newParentResource := newParentResource r; resourcePath := resourcePath r;
              shortWait := shortWait r; longWait := longWait r;
              templatingEngine := eng; childResourcePatcher := childResourcePatcher r |}.

Definition WithShortWait (d : Z) : TemplatingReconcilerOption :=
  fun r => {| newParentResource := newParentResource r; resourcePath := resourcePath r;
              shortWait := d; longWait := longWait r;
              templatingEngine := templatingEngine r;
              childResourcePatcher := childResourcePatcher r |}.

Definition WithLongWait (d : Z) : TemplatingReconcilerOption :=
  fun r => {| newParentResource := newParentResource r; resourcePath := resourcePath r;
              shortWait := shortWait r; longWait := d;
              templatingEngine := templatingEngine r;
              childResourcePatcher := childResourcePatcher r |}.

(** ** The reconciler *)

Section Reconciler.

Context {S : Type} {kube : Client S}.

(** [resource.SetConditions] belongs to package [resource], which is not
    embedded here: it is a parameter.  It returns the parent with the
    conditions set, and an error that the reconciler only logs. *)
Variable SetConditions : Unstructured -> list Condition -> Unstructured * option error.

(** Computations that thread the store and emit events. *)
Definition M (A : Type) : Type := S -> A * S * list Event.

Definition ret {A} (a : A) : M A := fun s => (a, s, []).

Definition bind {A B} (m : M A) (f : A -> M B) : M B :=
  fun s =>
    let '(a, s1, t1) := m s in
    let '(b, s2, t2) := f a s1 in
    (b, s2, t1 ++ t2).

Notation "x <- m ;; k" := (bind m (fun x => k))
  (at level 100, m at next level, right associativity).
Notation "' p <- m ;; k" := (bind m (fun x => let p := x in k))
  (at level 100, p pattern, m at next level, right associativity).

Definition kubeGet (key : NamespacedName) (into : Unstructured)
  : M (Unstructured * option error) :=
  fun s => let '(r, s') := Get key into s in (r, s', [Called (CallGet key into) (snd r)]).

Definition kubeCreate (o : Unstructured) : M (option error) :=
  fun s => let '(e, s') := Create o s in (e, s', [Called (CallCreate o) e]).

Definition kubePatch (target : Unstructured) (p : Patch) : M (option error) :=
  fun s => let '(e, s') := PatchObject target p s in (e, s', [Called (CallPatch target p) e]).

Definition kubeStatusUpdate (o : Unstructured) : M (option error) :=
  fun s => let '(e, s') := StatusUpdate o s in (e, s', [Called (CallStatusUpdate o) e]).

(** [r.onlyLog] *)
Definition onlyLog (err : option error) : M unit :=
  fun s => match err with
           | Some e => (tt, s, [Logged (Error e)])
           | None => (tt, s, [])
           end.

(** [r.onlyLog(resource.SetConditions(cr, c))]: the parent afterwards. *)
Definition setAndLog (cr : Unstructured) (c : Condition) : M Unstructured :=
  let '(cr', err) := SetConditions cr [c] in
  _ <- onlyLog err ;; ret cr'.

(** [Apply] creates if the object doesn't exist and patches if it does. *)
Definition Apply (o : Unstructured) : M (option error) :=
  let existing := DeepCopyObject o in
  '(existing, err) <- kubeGet (mkNamespacedName (GetNamespace o) (GetName o)) existing ;;
  if IsNotFound err then
    cerr <- kubeCreate o ;; ret (Wrap cerr errCreateChildResource)
  else
    match err with
    | Some _ => ret (Wrap err errGetChildResource)
    | None =>
        let '(patchJSON, err) := Marshal o in
        match err with
        | Some _ => ret err
        | None => kubePatch existing (ConstantPatch MergePatchType patchJSON)
        end
    end.

(** The message that names the child that failed to apply:
    [fmt.Sprintf("%s: %s/%s of type %s", errApply, ...)]. *)
Definition applyMessage (o : Unstructured) : string :=
  (errApply ++ ": " ++ GetName o ++ "/" ++ GetNamespace o ++ " of type "
    ++ GVKString (GetGroupVersionKind o))%string.

(** The end of every branch that reports:
    [return ctrl.Result{RequeueAfter: d}, errors.Wrap(r.kube.Status().Update(ctx, cr), errUpdateResourceStatus)]. *)
Definition report (cr : Unstructured) (c : Condition) (d : Z) : M (Result * option error) :=
  cr' <- setAndLog cr c ;;
  uerr <- kubeStatusUpdate cr' ;;
  ret (mkResult false d, Wrap uerr errUpdateResourceStatus).

(** The loop over the child resources and what follows it. *)
Fixpoint applyChildren (r : TemplatingReconciler) (cr : Unstructured)
    (childResources : list Unstructured) : M (Result * option error) :=
  match childResources with
  | [] => report cr ReconcileSuccess (longWait r)
  | o :: rest =>
      err <- Apply o ;;
      match err with
      | Some e => report cr (ReconcileError (withMessage e (applyMessage o))) (shortWait r)
      | None => applyChildren r cr rest
      end
  end.

Definition Reconcile (r : TemplatingReconciler) (req : Request) : M (Result * option error) :=
  let cr := newParentResource r in
  '(cr, err) <- kubeGet (ReqNamespacedName req) cr ;;
  match err with
  | Some _ => ret (mkResult false 0, Wrap (IgnoreNotFound err) errGetResource)
  | None =>
      if WasDeleted cr then ret (mkResult false 0, None)
      else
        let '(childResources, err) := templatingEngine r cr in
        match err with
        | Some e => report cr (ReconcileError (withMessage e errTemplatingOperation)) (shortWait r)
        | None =>
            let '(childResources, err) := ChainPatch (childResourcePatcher r) cr childResources in
            match err with
            | Some e => report cr (ReconcileError (withMessage e errChildResourcePatchers)) (shortWait r)
            | None => applyChildren r cr childResources
            end
        end
  end.

(** The part of [Reconcile] that follows the load and the deletion check, on
    its own, to state what happens from there. *)
Definition afterLoad (r : TemplatingReconciler) (cr : Unstructured)
  : M (Result * option error) :=
  match templatingEngine r cr with
  | (_, Some e) =>
      report cr (ReconcileError (withMessage e errTemplatingOperation)) (shortWait r)
  | (childResources, None) =>
      match ChainPatch (childResourcePatcher r) cr childResources with
      | (_, Some e) =>
          report cr (ReconcileError (withMessage e errChildResourcePatchers)) (shortWait r)
      | (childResources, None) => applyChildren r cr childResources
      end
  end.

(** The children of a list applied in order, each without error. *)
Inductive AppliedAll : list Unstructured -> S -> S -> list Event -> Prop :=
| AppliedNil : forall s, AppliedAll [] s s []
| AppliedCons : forall o rest s s1 t1 s2 t2,
    Apply o s = (None, s1, t1) ->
    AppliedAll rest s1 s2 t2 ->
    AppliedAll (o :: rest) s s2 (t1 ++ t2).

(** [Apply] called [n] times in a row with the same object. *)
Fixpoint ApplyTimes (n : nat) (o : Unstructured) : M (list (option error)) :=
  match n with
  | O => ret []
  | Datatypes.S n' =>
      e <- Apply o ;;
      es <- ApplyTimes n' o ;;
      ret (e :: es)
  end.

End Reconciler.

(** The key [Apply] looks a child up by:
    [types.NamespacedName{Name: o.GetName(), Namespace: o.GetNamespace()}]. *)
Definition childKey (o : Unstructured) : NamespacedName :=
  mkNamespacedName (GetNamespace o) (GetName o).

(** ** Reading a trace *)

Definition logOf (err : option error) : list Event :=
  match err with
  | Some e => [Logged (Error e)]
  | None => []
  end.

Definition isCreateOrPatch (ev : Event) : bool :=
  match ev with
  | Called (CallCreate _) _ | Called (CallPatch _ _) _ => true
  | _ => false
  end.

Definition succeeded (ev : Event) : bool :=
  match ev with
  | Called _ None => true
  | _ => false
  end.

Definition isStatusWrite (ev : Event) : bool :=
  match ev with
  | Called (CallStatusUpdate _) _ | Called (CallStatusPatch _ _) _ => true
  | _ => false
  end.

Definition isDelete (ev : Event) : bool :=
  match ev with
  | Called (CallDelete _) _ | Called (CallDeleteAllOf _) _ => true
  | _ => false
  end.

(** Every store call but the reads [Get] and [List]. *)
Definition isWrite (ev : Event) : bool :=
  match ev with
  | Called (CallGet _ _) _ | Called (CallList _) _ | Logged _ => false
  | Called _ _ => true
  end.

Definition count (p : Event -> bool) (t : list Event) : nat :=
  length (filter p t).

(** The create and patch calls that the store accepted. *)
Definition isAcceptedWrite (ev : Event) : bool :=
  isCreateOrPatch ev && succeeded ev.

(** ** Reference stores *)

(** The store itself lies outside the repository.  Two clients stand for it:
    a scripted client that answers from a list of prepared responses, for the
    error paths, and an in-memory store, for the claims that speak about the
    content of the store. *)

Module Scripted.

(** A prepared response: the object a [Get] fills in (when any) and the
    error of the call. *)
Record Response := Respond {
  filled : option Unstructured;
  failure : option error
}.

Definition Script := list Response.

Definition answerGet (into : Unstructured) (s : Script)
  : (Unstructured * option error) * Script :=
  match s with
  | [] => ((into, None), [])
  | Respond (Some o) e :: s' => ((o, e), s')
  | Respond None e :: s' => ((into, e), s')
  end.

Definition answer (s : Script) : option error * Script :=
  match s with
  | [] => (None, [])
  | Respond _ e :: s' => (e, s')
  end.

#[global] Instance client : Client Script := {|
  Get := fun _ into s => answerGet into s;
  Create := fun _ s => answer s;
  Delete := fun _ s => answer s;
  Update := fun _ s => answer s;
  PatchObject := fun _ _ s => answer s;
  StatusUpdate := fun _ s => answer s
|}.

End Scripted.

Module MemStore.

Definition gvkEqb (a b : GroupVersionKind) : bool :=
  String.eqb (Group a) (Group b) && String.eqb (Version a) (Version b)
    && String.eqb (Kind a) (Kind b).

(** Objects are identified by kind, namespace and name. *)
Definition hasIdentity (g : GroupVersionKind) (ns n : string) (o : Unstructured) : bool :=
  gvkEqb g (gvk o) && String.eqb ns (namespace o) && String.eqb n (name o).

Definition sameIdentity (a b : Unstructured) : bool :=
  hasIdentity (gvk a) (namespace a) (name a) b.

Definition Store := list Unstructured.

Definition find (g : GroupVersionKind) (ns n : string) (s : Store) : option Unstructured :=
  List.find (hasIdentity g ns n) s.

Fixpoint replace (o : Unstructured) (s : Store) : Store :=
  match s with
  | [] => []
  | x :: s' => if sameIdentity o x then o :: s' else x :: replace o s'
  end.

Definition remove (o : Unstructured) (s : Store) : Store :=
  filter (fun x => negb (sameIdentity o x)) s.

Definition errNotFound : error := StatusError StatusReasonNotFound "not found".
Definition errAlreadyExists : error := StatusError StatusReasonAlreadyExists "already exists".
Definition errBadPatch : error := StatusError StatusReasonInvalid "invalid patch".

(** *** JSON merge patch (RFC 7386), the patch type [Apply] asks for *)

Fixpoint lookupMember (k : string) (ms : list (string * Value)) : option Value :=
  match ms with
  | [] => None
  | (k', v) :: ms' => if String.eqb k k' then Some v else lookupMember k ms'
  end.

Fixpoint removeMember (k : string) (ms : list (string * Value)) : list (string * Value) :=
  match ms with
  | [] => []
  | (k', v) :: ms' =>
      if String.eqb k k' then removeMember k ms' else (k', v) :: removeMember k ms'
  end.

Fixpoint setMember (k : string) (v : Value) (ms : list (string * Value))
  : list (string * Value) :=
  match ms with
  | [] => [(k, v)]
  | (k', v') :: ms' =>
      if String.eqb k k' then (k, v) :: ms' else (k', v') :: setMember k v ms'
  end.

(** One member of the patch after the other: a null removes the member of
    the target, anything else is merged into it. *)
Definition mergeMembers (merge : Value -> Value -> Value) :=
  fix each (patch target : list (string * Value)) : list (string * Value) :=
    match patch with
    | [] => target
    | (k, v) :: patch' =>
        each patch'
          match v with
          | VNull => removeMember k target
          | _ =>
              setMember k
                (merge match lookupMember k target with
                       | Some t => t
                       | None => VNull
                       end v)
                target
          end
    end.

Fixpoint MergePatch (target patch : Value) {struct patch} : Value :=
  match patch with
  | VObj pms =>
      VObj (mergeMembers MergePatch pms
              match target with
              | VObj tms => tms
              | _ => []
              end)
  | _ => patch
  end.

(** A merge patch changes the content of the target.  The metadata the
    store manages and the status subresource stay as they are. *)
Definition mergeObject (target : Unstructured) (raw : RawJSON) : Unstructured :=
  {| gvk := gvk target; name := name target; namespace := namespace target;
     deletionTimestamp := deletionTimestamp target;
     conditions := conditions target;
     fields := match MergePatch (VObj (fields target)) (VObj (fields (document raw))) with
               | VObj ms => ms
               | _ => []
               end |}.

(** Objects travel as JSON.  The client serializes what it sends, so an
    object with no JSON encoding is refused by [create], [update] and
    [statusUpdate] before it reaches the store, and a patch whose document is
    not JSON is refused; a stored object with no JSON encoding cannot be read
    back, and [get] fails on it. *)
Definition onWire (o : Unstructured) : bool := encodable (VObj (fields o)).

Definition get (key : NamespacedName) (into : Unstructured) (s : Store)
  : (Unstructured * option error) * Store :=
  match find (gvk into) (Namespace key) (Name key) s with
  | Some o =>
      if onWire o then ((o, None), s) else ((into, Some errUnsupportedValue), s)
  | None => ((into, Some errNotFound), s)
  end.

Definition create (o : Unstructured) (s : Store) : option error * Store :=
  if onWire o then
    match find (gvk o) (namespace o) (name o) s with
    | Some _ => (Some errAlreadyExists, s)
    | None => (None, s ++ [o])
    end
  else (Some errUnsupportedValue, s).

Definition delete (o : Unstructured) (s : Store) : option error * Store :=
  match find (gvk o) (namespace o) (name o) s with
  | Some _ => (None, remove o s)
  | None => (Some errNotFound, s)
  end.

Definition update (o : Unstructured) (s : Store) : option error * Store :=
  if onWire o then
    match find (gvk o) (namespace o) (name o) s with
    | Some _ => (None, replace o s)
    | None => (Some errNotFound, s)
    end
  else (Some errUnsupportedValue, s).

Definition patch (target : Unstructured) (p : Patch) (s : Store) : option error * Store :=
  match find (gvk target) (namespace target) (name target) s with
  | None => (Some errNotFound, s)
  | Some stored =>
      match patchType p, patchData p with
      | MergePatchType, Some raw =>
          if onWire (document raw)
          then (None, replace (mergeObject stored raw) s)
          else (Some errBadPatch, s)
      | _, _ => (Some errBadPatch, s)
      end
  end.

Definition statusUpdate (o : Unstructured) (s : Store) : option error * Store :=
  if onWire o then
    match find (gvk o) (namespace o) (name o) s with
    | None => (Some errNotFound, s)
    | Some stored =>
        (None,
         replace {| gvk := gvk stored; name := name stored; namespace := namespace stored;
                    deletionTimestamp := deletionTimestamp stored;
                    conditions := conditions o;
                    fields := fields stored |} s)
    end
  else (Some errUnsupportedValue, s).

#[global] Instance client : Client Store := {|
  Get := get;
  Create := create;
  Delete := delete;
  Update := update;
  PatchObject := patch;
  StatusUpdate := statusUpdate
|}.

(** No member of an object (at any depth reached through objects) is null,
    and no object names a member twice: Go maps have one value per key. *)
Fixpoint plain (v : Value) : Prop :=
  match v with
  | VObj ms =>
      NoDup (map fst ms) /\
      (fix all (ms : list (string * Value)) : Prop :=
         match ms with
         | [] => True
         | (_, x) :: ms' => x <> VNull /\ plain x /\ all ms'
         end) ms
  | _ => True
  end.

End MemStore.

(** Two conditions are of the same type. *)
Definition sameType (a b : Condition) : bool :=
  match Type_ a, Type_ b with
  | TypeReady, TypeReady | TypeSynced, TypeSynced => true
  | _, _ => false
  end.

(** Modelled from the spec: the mutation of the status conditions done by
    [resource.SetConditions], a function of package [resource], which is not
    embedded here.  Setting a condition is find-or-append by type: a
    condition of the same type is replaced, otherwise the new condition is
    appended. *)
Fixpoint setCondition (c : Condition) (cs : list Condition) : list Condition :=
  match cs with
  | [] => [c]
  | x :: rest => if sameType x c then c :: rest else x :: setCondition c rest
  end.

(** The conditions of the type of [c] among [cs]. *)
Definition ofType (c : Condition) (cs : list Condition) : list Condition :=
  filter (fun x => sameType x c) cs.

(** Modelled from the spec: [resource.SetConditions], a function of package
    [resource], which is not embedded here.  It sets the conditions one after
    the other; the spec names no failure of this operation. *)
Definition SetConditionsModel (cr : Unstructured) (cs : list Condition)
  : Unstructured * option error :=
  ({| gvk := gvk cr; name := name cr; namespace := namespace cr;
      deletionTimestamp := deletionTimestamp cr;
      conditions := fold_left (fun acc c => setCondition c acc) cs (conditions cr);
      fields := fields cr |}, None).

(** ** Sample objects and clients used to run the definitions *)

Module Sample.

Definition deployment : GroupVersionKind := mkGVK "apps" "v1" "Deployment".
Definition wordpress : GroupVersionKind :=
  mkGVK "wordpress.samples.stacks.crossplane.io" "v1alpha1" "WordpressInstance".

Definition parent : Unstructured :=
  mkUnstructured wordpress "site" "default" None [] [].

Definition deletedParent : Unstructured :=
  mkUnstructured wordpress "site" "default" (Some 1577836800) [] [].

Definition childA : Unstructured :=
  mkUnstructured deployment "a" "default" None []
    [("spec", VObj [("replicas", VNum 1); ("image", VStr "wordpress")])].

Definition childB : Unstructured :=
  mkUnstructured deployment "b" "default" None []
    [("spec", VObj [("replicas", VNum 2)])].

(** A child whose content has no JSON encoding. *)
Definition childNaN : Unstructured :=
  mkUnstructured deployment "c" "default" None []
    [("spec", VObj [("ratio", VUnsupported)])].

(** What the store holds under the identity of [childNaN]. *)
Definition storedC : Unstructured :=
  mkUnstructured deployment "c" "default" None []
    [("spec", VObj [("ratio", VNum 1)])].

(** A child with an explicit null member. *)
Definition childNull : Unstructured :=
  mkUnstructured deployment "d" "default" None []
    [("spec", VObj [("replicas", VNull)])].

Definition request : Request := mkRequest (mkNamespacedName "default" "site").

Definition errBoom : error := errorString "boom".
Definition errRefused : error := StatusError StatusReasonInvalid "refused".
Definition errGone : error := StatusError StatusReasonNotFound "not found".

Definition identityPatcher : ChildResourcePatcher := fun _ l => (l, None).
Definition failingPatcher : ChildResourcePatcher := fun _ _ => ([], Some errBoom).

(** A reconciler whose engine renders the given children. *)
Definition reconciler (children : list Unstructured) : TemplatingReconciler :=
  mkTemplatingReconciler (mkUnstructured wordpress "" "" None [] []) ""
    defaultShortWait defaultLongWait
    (fun _ => (children, None)) [identityPatcher].

Definition failingEngine : TemplatingReconciler :=
  WithTemplatingEngine (fun _ => ([], Some errBoom)) (reconciler []).

Definition failingChain : TemplatingReconciler :=
  WithChildResourcePatcher [identityPatcher; failingPatcher] (reconciler [childA]).

Definition fetchParent : Call :=
  CallGet (ReqNamespacedName request) (newParentResource (reconciler [])).

Definition mergePatchOf (o : Unstructured) : Patch :=
  ConstantPatch MergePatchType (Some (mkRawJSON o)).

(** The parent with one condition set. *)
Definition parentWith (c : Condition) : Unstructured :=
  mkUnstructured wordpress "site" "default" None [c] [].

End Sample.

(** ** The constructor *)

Section Constructor.

(** [resource.NopTemplatingEngine] and the five default patchers
    ([NewOwnerReferenceAdder], [NewDefaultingAnnotationRemover],
    [NewNamespacePatcher], [NewLabelPropagator], [NewParentLabelSetAdder])
    belong to package [resource], which is not embedded here: they are
    parameters. *)
Variable NopTemplatingEngine : TemplatingEngine.
Variable defaultPatchers : ChildResourcePatcherChain.

(** [nr]: an empty unstructured object with the kind set. *)
Definition blankParent (of_ : GroupVersionKind) : Unstructured :=
  mkUnstructured of_ "" "" None [] [].

(** [NewTemplatingReconciler(m, of, options...)].  The client of the manager
    is the [Client] instance in scope, and the no-op logger is the event
    trace left unread. *)
Definition NewTemplatingReconciler (of_ : GroupVersionKind)
    (options : list TemplatingReconcilerOption) : TemplatingReconciler :=
  let r := {| newParentResource := blankParent of_;
              resourcePath := "";
              shortWait := defaultShortWait;
              longWait := defaultLongWait;
              templatingEngine := NopTemplatingEngine;
              childResourcePatcher := defaultPatchers |} in
  fold_left (fun r opt => opt r) options r.

End Constructor.

(** The options this package provides (but [WithLogger], the logger being
    the trace). *)
Inductive Provided : TemplatingReconcilerOption -> Prop :=
| ProvidedPatchers : forall op, Provided (WithChildResourcePatcher op)
| ProvidedEngine : forall eng, Provided (WithTemplatingEngine eng)
| ProvidedShortWait : forall d, Provided (WithShortWait d)
| ProvidedLongWait : forall d, Provided (WithLongWait d).

(** An option that leaves a field of the reconciler as it finds it. *)
Definition keeps {A : Type} (field : TemplatingReconciler -> A)
    (opt : TemplatingReconcilerOption) : Prop :=
  forall r, field (opt r) = field r.

(** ** More ways to read a trace *)

(** The fetches of a trace: the key asked for and the object handed in. *)
Definition fetches (t : list Event) : list (NamespacedName * Unstructured) :=
  flat_map (fun ev => match ev with
                      | Called (CallGet key into) _ => [(key, into)]
                      | _ => []
                      end) t.

(** The objects a trace writes, in order: the object of a create, and for a
    patch the object whose serialization the patch carries. *)
Definition written (t : list Event) : list Unstructured :=
  flat_map (fun ev => match ev with
                      | Called (CallCreate o) _ => [o]
                      | Called (CallPatch _ p) _ =>
                          match patchData p with
                          | Some raw => [document raw]
                          | None => []
                          end
                      | _ => []
                      end) t.

Definition isLog (ev : Event) : bool :=
  match ev with
  | Logged _ => true
  | _ => false
  end.

(** The calls the reconciler is written to make: [Get], [Create], a merge
    patch that carries a document, and [Status().Update]. *)
Definition isReconcilerCall (ev : Event) : bool :=
  match ev with
  | Called (CallGet _ _) _ | Called (CallCreate _) _
  | Called (CallStatusUpdate _) _ | Logged _ => true
  | Called (CallPatch _ p) _ =>
      match patchType p, patchData p with
      | MergePatchType, Some _ => true
      | _, _ => false
      end
  | _ => false
  end.

(** What a report carries: the success condition with the long wait, or an
    error condition, labelled, with the short wait. *)
Definition reportsSuccess (r : TemplatingReconciler) (c : Condition) (d : Z) : Prop :=
  c = ReconcileSuccess /\ d = longWait r.

Definition reportsFailure (r : TemplatingReconciler) (label : string)
    (c : Condition) (d : Z) : Prop :=
  exists e, c = ReconcileError (withMessage e label) /\ d = shortWait r.

(** The label of an error condition: one of the two phase labels, or the
    message that names a child. *)
Definition phaseLabel (label : string) : Prop :=
  label = errTemplatingOperation \/ label = errChildResourcePatchers \/
  exists o, label = applyMessage o.

(** An event that, when it is a create or a patch, writes one of the given
    children: the child itself for a create, its serialization under a merge
    patch for a patch. *)
Definition writesOneOf (l : list Unstructured) (ev : Event) : Prop :=
  match ev with
  | Called (CallCreate o) _ => In o l
  | Called (CallPatch _ p) _ =>
      exists o, In o l /\ p = ConstantPatch MergePatchType (Some (mkRawJSON o))
  | _ => True
  end.

(** A [SetConditions] that always fails, to run the logging path. *)
Definition brokenSetConditions (cr : Unstructured) (_ : list Condition)
  : Unstructured * option error :=
  (cr, Some (errorString "status is malformed")).

(** More sample values: a reconciler built by the constructor. *)
Module Built.

Definition nopEngine : TemplatingEngine := fun _ => ([], None).

Definition defaults : ChildResourcePatcherChain := [Sample.identityPatcher].

Definition renderA : TemplatingEngine := fun _ => ([Sample.childA], None).

Definition options : list TemplatingReconcilerOption :=
  [WithShortWait 1; WithTemplatingEngine renderA; WithShortWait 2; WithLongWait 5].

Definition reconciler : TemplatingReconciler :=
  NewTemplatingReconciler nopEngine defaults Sample.wordpress options.

End Built.

(** * Properties *)

Ltac run :=
  unfold Reconcile, applyChildren, report, setAndLog, Apply, bind, ret, kubeGet,
    kubeCreate, kubePatch, kubeStatusUpdate, onlyLog, DeepCopyObject.

Section ApplyFacts.

Context {S : Type} {kube : Client S}.

Lemma Apply_not_found (o : Unstructured) (s s1 s2 : S) existing err cerr :
  Get (childKey o) o s = ((existing, err), s1) ->
  IsNotFound err = true ->
  Create o s1 = (cerr, s2) ->
  Apply o s = (Wrap cerr errCreateChildResource, s2,
               [Called (CallGet (childKey o) o) err; Called (CallCreate o) cerr]).
Proof.
  unfold childKey. intros Hget Hnf Hcreate. run.
  rewrite Hget. cbn [snd]. rewrite Hnf, Hcreate. reflexivity.
Qed.

Lemma Apply_get_error (o : Unstructured) (s s1 : S) existing e :
  Get (childKey o) o s = ((existing, Some e), s1) ->
  IsNotFound (Some e) = false ->
  Apply o s = (Some (withMessage e errGetChildResource), s1,
               [Called (CallGet (childKey o) o) (Some e)]).
Proof.
  unfold childKey. intros Hget Hnf. run.
  rewrite Hget. cbn [snd]. rewrite Hnf. reflexivity.
Qed.

Lemma Apply_marshal_error (o : Unstructured) (s s1 : S) existing raw e :
  Get (childKey o) o s = ((existing, None), s1) ->
  Marshal o = (raw, Some e) ->
  Apply o s = (Some e, s1, [Called (CallGet (childKey o) o) None]).
Proof.
  unfold childKey. intros Hget Hm. run.
  rewrite Hget. cbn [snd IsNotFound ReasonForError]. rewrite Hm. reflexivity.
Qed.

Lemma Apply_found (o : Unstructured) (s s1 s2 : S) existing raw perr :
  Get (childKey o) o s = ((existing, None), s1) ->
  Marshal o = (raw, None) ->
  PatchObject existing (ConstantPatch MergePatchType raw) s1 = (perr, s2) ->
  Apply o s = (perr, s2,
               [Called (CallGet (childKey o) o) None;
                Called (CallPatch existing (ConstantPatch MergePatchType raw)) perr]).
Proof.
  unfold childKey. intros Hget Hm Hpatch. run.
  rewrite Hget. cbn [snd IsNotFound ReasonForError]. rewrite Hm, Hpatch. reflexivity.
Qed.

End ApplyFacts.

Lemma count_app (p : Event -> bool) (a b : list Event) :
  count p (a ++ b) = (count p a + count p b)%nat.
Proof. unfold count. rewrite filter_app, length_app. reflexivity. Qed.

Lemma count_none (p : Event -> bool) (t : list Event) :
  count p t = 0%nat -> forall ev, In ev t -> p ev = false.
Proof.
  unfold count. induction t as [|x t IH]; cbn [filter]; intros Hc ev Hin.
  - destruct Hin.
  - destruct (p x) eqn:Hx; [discriminate|].
    destruct Hin as [<-|Hin]; auto.
Qed.

Lemma count_logOf (p : Event -> bool) (err : option error) :
  (forall m, p (Logged m) = false) -> count p (logOf err) = 0%nat.
Proof. intros Hp. destruct err; unfold count; cbn; [rewrite Hp|]; reflexivity. Qed.

Section LoopFacts.

Context {S : Type} {kube : Client S}.
Variable SetConditions : Unstructured -> list Condition -> Unstructured * option error.

(** The four ways through [Apply]. *)
Lemma Apply_inv (o : Unstructured) (s : S) :
  exists existing err s1,
    Get (childKey o) o s = ((existing, err), s1) /\
    ((IsNotFound err = true /\
      exists cerr s2, Create o s1 = (cerr, s2) /\
        Apply o s = (Wrap cerr errCreateChildResource, s2,
                     [Called (CallGet (childKey o) o) err; Called (CallCreate o) cerr]))
     \/ (exists e, err = Some e /\ IsNotFound err = false /\
          Apply o s = (Some (withMessage e errGetChildResource), s1,
                       [Called (CallGet (childKey o) o) err]))
     \/ (err = None /\ exists raw e, Marshal o = (raw, Some e) /\
          Apply o s = (Some e, s1, [Called (CallGet (childKey o) o) None]))
     \/ (err = None /\ exists raw perr s2, Marshal o = (raw, None) /\
          PatchObject existing (ConstantPatch MergePatchType raw) s1 = (perr, s2) /\
          Apply o s = (perr, s2,
                       [Called (CallGet (childKey o) o) None;
                        Called (CallPatch existing (ConstantPatch MergePatchType raw)) perr]))).
Proof.
  destruct (Get (childKey o) o s) as [[existing err] s1] eqn:Hget.
  exists existing, err, s1. split; [reflexivity|].
  destruct (IsNotFound err) eqn:Hnf.
  - left. split; [reflexivity|].
    destruct (Create o s1) as [cerr s2] eqn:Hc.
    exists cerr, s2. split; [reflexivity|].
    eapply Apply_not_found; eauto.
  - right. destruct err as [e|].
    + left. exists e. repeat split; auto. eapply Apply_get_error; eauto.
    + right. destruct (Marshal o) as [raw [e|]] eqn:Hm.
      * left. split; [reflexivity|]. exists raw, e. split; [reflexivity|].
        eapply Apply_marshal_error; eauto.
      * right. split; [reflexivity|].
        destruct (PatchObject existing (ConstantPatch MergePatchType raw) s1)
          as [perr s2] eqn:Hp.
        exists raw, perr, s2. repeat split; auto. eapply Apply_found; eauto.
Qed.

(** What one [Apply] leaves in the trace. *)
Lemma Apply_trace (o : Unstructured) (s s' : S) res t :
  Apply o s = (res, s', t) ->
  count isStatusWrite t = 0%nat /\
  count isDelete t = 0%nat /\
  (count isCreateOrPatch t <= 1)%nat /\
  (res = None -> count isAcceptedWrite t = 1%nat /\ count isCreateOrPatch t = 1%nat) /\
  (res <> None -> count isAcceptedWrite t = 0%nat).
Proof.
  intros Hrun.
  destruct (Apply_inv o s) as (existing & err & s1 & Hget & Hcases).
  destruct Hcases as [(Hnf & cerr & s2 & Hc & Heq)
                     |[(e & -> & Hnf & Heq)
                     |[(-> & raw & e & Hm & Heq)
                     |(-> & raw & perr & s2 & Hm & Hp & Heq)]]];
    rewrite Heq in Hrun; inversion Hrun; subst; clear Hrun.
  - destruct cerr; cbn; repeat split; auto; intros; try discriminate; congruence.
  - cbn; repeat split; auto; intros; try discriminate; congruence.
  - cbn; repeat split; auto; intros; try discriminate; congruence.
  - destruct res; cbn; repeat split; auto; intros; try discriminate; congruence.
Qed.

Lemma AppliedAll_trace (l : list Unstructured) (s s' : S) t :
  AppliedAll l s s' t ->
  count isStatusWrite t = 0%nat /\
  count isDelete t = 0%nat /\
  count isAcceptedWrite t = length l /\
  count isCreateOrPatch t = length l.
Proof.
  induction 1 as [s|o rest s s1 t1 s2 t2 Happly Hrest IH].
  - repeat split; reflexivity.
  - destruct (Apply_trace _ _ Happly) as (Hs & Hd & _ & Hok & _).
    destruct (Hok eq_refl) as [Hacc Hcp].
    destruct IH as (IHs & IHd & IHacc & IHcp).
    rewrite !count_app. cbn [length]. repeat split; lia.
Qed.

(** The reporting tail of every branch, spelled out. *)
Lemma report_eq (cr : Unstructured) (c : Condition) (d : Z) (s : S) :
  report SetConditions cr c d s =
    let cr' := fst (SetConditions cr [c]) in
    let uerr := fst (StatusUpdate cr' s) in
    (mkResult false d, Wrap uerr errUpdateResourceStatus,
     snd (StatusUpdate cr' s),
     logOf (snd (SetConditions cr [c])) ++ [Called (CallStatusUpdate cr') uerr]).
Proof.
  run. destruct (SetConditions cr [c]) as [cr' serr]. cbn [fst snd].
  destruct serr; cbn [logOf app];
    destruct (StatusUpdate cr' s) as [uerr s']; reflexivity.
Qed.

(** The loop stops at the first child that fails. *)
Lemma applyChildren_stops (r : TemplatingReconciler) (cr : Unstructured)
    (pre post : list Unstructured) (c : Unstructured) (s s1 s2 : S) t1 t2 e :
  AppliedAll pre s s1 t1 ->
  Apply c s1 = (Some e, s2, t2) ->
  applyChildren SetConditions r cr (pre ++ c :: post) s =
    let out := report SetConditions cr
                 (ReconcileError (withMessage e (applyMessage c))) (shortWait r) s2 in
    (fst (fst out), snd (fst out), t1 ++ t2 ++ snd out).
Proof.
  intros Hall. revert t2 e s2. induction Hall as [s|o rest s s1 t1 s3 t3 Happly Hrest IH];
    intros t2 e s2 Hc.
  - cbn [app applyChildren]. unfold bind at 1. rewrite Hc.
    destruct (report _ _ _ _ s2) as [[res s4] t4]. reflexivity.
  - cbn [app applyChildren]. unfold bind at 1. rewrite Happly.
    rewrite (IH _ _ _ Hc). cbn [fst snd].
    rewrite <- app_assoc. reflexivity.
Qed.

(** The loop runs to its end when every child applies. *)
Lemma applyChildren_all (r : TemplatingReconciler) (cr : Unstructured)
    (l : list Unstructured) (s s1 : S) t1 :
  AppliedAll l s s1 t1 ->
  applyChildren SetConditions r cr l s =
    let out := report SetConditions cr ReconcileSuccess (longWait r) s1 in
    (fst (fst out), snd (fst out), t1 ++ snd out).
Proof.
  induction 1 as [s|o rest s s1 t1 s3 t3 Happly Hrest IH].
  - cbn [applyChildren app].
    destruct (report _ _ _ _ s) as [[res s4] t4]. reflexivity.
  - cbn [applyChildren]. unfold bind at 1. rewrite Happly, IH. cbn [fst snd].
    rewrite <- app_assoc. reflexivity.
Qed.

(** Whatever the children do, the loop ends in one report. *)
Lemma applyChildren_shape (r : TemplatingReconciler) (cr : Unstructured)
    (l : list Unstructured) (s : S) :
  exists t0 c d s1,
    applyChildren SetConditions r cr l s =
      (let out := report SetConditions cr c d s1 in
       (fst (fst out), snd (fst out), t0 ++ snd out)) /\
    count isStatusWrite t0 = 0%nat /\
    count isDelete t0 = 0%nat.
Proof.
  revert s. induction l as [|o rest IH]; intros s.
  - exists [], ReconcileSuccess, (longWait r), s. cbn [applyChildren app].
    destruct (report _ _ _ _ s) as [[res s4] t4]. repeat split.
  - cbn [applyChildren]. unfold bind at 1.
    destruct (Apply o s) as [[res s1] t1] eqn:Happly.
    destruct (Apply_trace _ _ Happly) as (Hs & Hd & _).
    destruct res as [e|].
    + exists t1, (ReconcileError (withMessage e (applyMessage o))), (shortWait r), s1.
      destruct (report _ _ _ _ s1) as [[res s4] t4]. repeat split; assumption.
    + destruct (IH s1) as (t0 & c & d & s2 & Heq & Hs0 & Hd0).
      exists (t1 ++ t0), c, d, s2. rewrite Heq.
      rewrite !count_app, <- app_assoc. repeat split; lia.
Qed.

(** How many creates or patches one [Apply] issues, read off its fetch and
    its serialization. *)
Lemma Apply_issued (o : Unstructured) (s s' : S) res t :
  Apply o s = (res, s', t) ->
  (IsNotFound (snd (fst (Get (childKey o) o s))) = true ->
   count isCreateOrPatch t = 1%nat) /\
  (IsNotFound (snd (fst (Get (childKey o) o s))) = false ->
   snd (fst (Get (childKey o) o s)) <> None ->
   count isCreateOrPatch t = 0%nat) /\
  (snd (fst (Get (childKey o) o s)) = None -> snd (Marshal o) <> None ->
   count isCreateOrPatch t = 0%nat) /\
  (snd (fst (Get (childKey o) o s)) = None -> snd (Marshal o) = None ->
   count isCreateOrPatch t = 1%nat).
Proof.
  intros Hrun.
  destruct (Apply_inv o s) as (existing & err & s1 & Hget & Hcases).
  rewrite Hget. cbn [fst snd].
  destruct Hcases as [(Hnf & cerr & s2 & Hc & Heq)
                     |[(e & -> & Hnf & Heq)
                     |[(-> & raw & e & Hm & Heq)
                     |(-> & raw & perr & s2 & Hm & Hp & Heq)]]];
    rewrite Heq in Hrun; inversion Hrun; subst; clear Hrun;
    try rewrite Hm; cbn [snd]; repeat split; intros; try reflexivity;
    try congruence; try discriminate.
  destruct err; discriminate.
Qed.

End LoopFacts.

Lemma append_assoc (a b c : string) : ((a ++ b) ++ c = a ++ (b ++ c))%string.
Proof. induction a as [|ch a IH]; cbn; [reflexivity|now rewrite IH]. Qed.

(** With the modelled [SetConditions], a parent that holds at most one
    condition of a type holds exactly one after a condition of that type is
    set, and it is the one that was set. *)
Lemma setCondition_ofType (c : Condition) (cs : list Condition) :
  (length (ofType c cs) <= 1)%nat ->
  ofType c (setCondition c cs) = [c].
Proof.
  assert (Hc : sameType c c = true) by (unfold sameType; destruct (Type_ c); reflexivity).
  unfold ofType. induction cs as [|x cs IH]; cbn [setCondition filter]; intros Hle.
  - now rewrite Hc.
  - destruct (sameType x c) eqn:Hx; cbn [filter length] in *.
    + rewrite Hc. f_equal.
      destruct (filter (fun y => sameType y c) cs); [reflexivity|cbn in Hle; lia].
    + rewrite Hx. now apply IH.
Qed.

Lemma SetConditionsModel_conditions (cr : Unstructured) (c : Condition) :
  conditions (fst (SetConditionsModel cr [c])) = setCondition c (conditions cr) /\
  snd (SetConditionsModel cr [c]) = None.
Proof. split; reflexivity. Qed.

Section ReconcileFacts.

Context {S : Type} {kube : Client S}.
Variable SetConditions : Unstructured -> list Condition -> Unstructured * option error.

#[local] Abbreviation reconcile := (Reconcile SetConditions).

Lemma Reconcile_loaded (r : TemplatingReconciler) (req : Request) (s s0 : S) cr :
  Get (ReqNamespacedName req) (newParentResource r) s = ((cr, None), s0) ->
  WasDeleted cr = false ->
  reconcile r req s =
    (fst (fst (afterLoad SetConditions r cr s0)), snd (fst (afterLoad SetConditions r cr s0)),
     Called (CallGet (ReqNamespacedName req) (newParentResource r)) None
       :: snd (afterLoad SetConditions r cr s0)).
Proof.
  intros Hget Hdel. unfold afterLoad, Reconcile, bind at 1, kubeGet.
  rewrite Hget. cbn [snd fst]. rewrite Hdel.
  destruct (templatingEngine r cr) as [children [e|]].
  - destruct (report _ _ _ _ s0) as [[res s1] t1]. reflexivity.
  - destruct (ChainPatch (childResourcePatcher r) cr children) as [children' [e|]].
    + destruct (report _ _ _ _ s0) as [[res s1] t1]. reflexivity.
    + destruct (applyChildren SetConditions r cr children' s0) as [[res s1] t1]. reflexivity.
Qed.

Lemma Reconcile_get_failed (r : TemplatingReconciler) (req : Request) (s s0 : S) cr e :
  Get (ReqNamespacedName req) (newParentResource r) s = ((cr, Some e), s0) ->
  reconcile r req s =
    (mkResult false 0, Wrap (IgnoreNotFound (Some e)) errGetResource, s0,
     [Called (CallGet (ReqNamespacedName req) (newParentResource r)) (Some e)]).
Proof.
  intros Hget. unfold Reconcile, bind at 1, kubeGet.
  rewrite Hget. reflexivity.
Qed.

Lemma Reconcile_was_deleted (r : TemplatingReconciler) (req : Request) (s s0 : S) cr :
  Get (ReqNamespacedName req) (newParentResource r) s = ((cr, None), s0) ->
  WasDeleted cr = true ->
  reconcile r req s =
    (mkResult false 0, None, s0,
     [Called (CallGet (ReqNamespacedName req) (newParentResource r)) None]).
Proof.
  intros Hget Hdel. unfold Reconcile, bind at 1, kubeGet.
  rewrite Hget. cbn [snd fst]. rewrite Hdel. reflexivity.
Qed.

(** Past the load, every path ends in exactly one report. *)
Lemma afterLoad_shape (r : TemplatingReconciler) (cr : Unstructured) (s0 : S) :
  exists t0 c d s1,
    afterLoad SetConditions r cr s0 =
      (fst (fst (report SetConditions cr c d s1)), snd (fst (report SetConditions cr c d s1)),
       t0 ++ snd (report SetConditions cr c d s1)) /\
    count isStatusWrite t0 = 0%nat /\
    count isDelete t0 = 0%nat.
Proof.
  unfold afterLoad.
  destruct (templatingEngine r cr) as [children [e|]].
  - exists [], (ReconcileError (withMessage e errTemplatingOperation)), (shortWait r), s0.
    destruct (report _ _ _ _ s0) as [[res s1] t1]. repeat split.
  - destruct (ChainPatch (childResourcePatcher r) cr children) as [children' [e|]].
    + exists [], (ReconcileError (withMessage e errChildResourcePatchers)), (shortWait r), s0.
      destruct (report _ _ _ _ s0) as [[res s1] t1]. repeat split.
    + destruct (applyChildren_shape SetConditions r cr children' s0)
        as (t0 & c & d & s1 & Heq & Hs & Hd).
      exists t0, c, d, s1. rewrite Heq. repeat split; assumption.
Qed.

Lemma report_trace_counts (cr : Unstructured) (c : Condition) (d : Z) (s : S) :
  count isStatusWrite (snd (report SetConditions cr c d s)) = 1%nat /\
  count isDelete (snd (report SetConditions cr c d s)) = 0%nat.
Proof.
  rewrite report_eq. cbn [snd]. rewrite !count_app.
  rewrite !count_logOf by reflexivity. split; reflexivity.
Qed.

End ReconcileFacts.

(** * The claims about the reconciler, for any store *)

Section Claims.

Context {S : Type} {kube : Client S}.
Variable SetConditions : Unstructured -> list Condition -> Unstructured * option error.

#[local] Abbreviation reconcile := (Reconcile SetConditions).

(** C1 (as amended).  [Apply] first fetches the object with the identity of
    the child.  When the fetch reports not-found it creates the child as given
    and returns the outcome of the create, wrapped with the create label.
    When the fetch fails otherwise it returns that error wrapped with the get
    label.  When the fetch succeeds and the child serializes, it issues a
    merge patch carrying the serialized child against the fetched object and
    returns the outcome of the patch as the store gave it, with no label. *)
Theorem Apply_protocol (o : Unstructured) (s s1 : S) existing err :
  Get (childKey o) o s = ((existing, err), s1) ->
  (IsNotFound err = true ->
   forall cerr s2, Create o s1 = (cerr, s2) ->
     Apply o s = (Wrap cerr errCreateChildResource, s2,
                  [Called (CallGet (childKey o) o) err; Called (CallCreate o) cerr])) /\
  (IsNotFound err = false ->
   forall e, err = Some e ->
     Apply o s = (Some (withMessage e errGetChildResource), s1,
                  [Called (CallGet (childKey o) o) err])) /\
  (err = None ->
   forall raw, Marshal o = (raw, None) ->
   forall perr s2, PatchObject existing (ConstantPatch MergePatchType raw) s1 = (perr, s2) ->
     Apply o s = (perr, s2,
                  [Called (CallGet (childKey o) o) None;
                   Called (CallPatch existing (ConstantPatch MergePatchType raw)) perr])).
Proof.
  intros Hget. split; [|split].
  - intros Hnf cerr s2 Hc. eapply Apply_not_found; eauto.
  - intros Hnf e ->. eapply Apply_get_error; eauto.
  - intros -> raw Hm perr s2 Hp. eapply Apply_found; eauto.
Qed.

(** C10.  When the fetch succeeds and serializing the child fails, [Apply]
    returns the serialization error as it is, without any label, and the only
    store call is the fetch: no patch is issued. *)
Theorem Apply_marshal_failure (o : Unstructured) (s s1 : S) existing raw e :
  Get (childKey o) o s = ((existing, None), s1) ->
  Marshal o = (raw, Some e) ->
  Apply o s = (Some e, s1, [Called (CallGet (childKey o) o) None]) /\
  count isCreateOrPatch (snd (Apply o s)) = 0%nat.
Proof.
  intros Hget Hm. rewrite (Apply_marshal_error _ _ Hget Hm). split; reflexivity.
Qed.

(** C6.  When the parent is not found in the store, [Reconcile] returns no
    error and no requeue directive; the fetch is its only store call. *)
Theorem Reconcile_parent_not_found (r : TemplatingReconciler) (req : Request)
    (s s0 : S) cr err :
  Get (ReqNamespacedName req) (newParentResource r) s = ((cr, err), s0) ->
  IsNotFound err = true ->
  reconcile r req s =
    (mkResult false 0, None, s0,
     [Called (CallGet (ReqNamespacedName req) (newParentResource r)) err]).
Proof.
  intros Hget Hnf. destruct err as [e|]; [|discriminate].
  rewrite (Reconcile_get_failed SetConditions _ _ _ Hget).
  unfold IgnoreNotFound. rewrite Hnf. reflexivity.
Qed.

(** C7.  When the parent carries a deletion marker, [Reconcile] returns no
    error and no requeue directive, and the fetch of the parent is its only
    store call: it writes nothing. *)
Theorem Reconcile_parent_deleted (r : TemplatingReconciler) (req : Request)
    (s s0 : S) cr :
  Get (ReqNamespacedName req) (newParentResource r) s = ((cr, None), s0) ->
  WasDeleted cr = true ->
  reconcile r req s =
    (mkResult false 0, None, s0,
     [Called (CallGet (ReqNamespacedName req) (newParentResource r)) None]) /\
  count isWrite (snd (reconcile r req s)) = 0%nat.
Proof.
  intros Hget Hdel. rewrite (Reconcile_was_deleted SetConditions _ _ _ Hget Hdel).
  split; reflexivity.
Qed.

(** C3 (as amended).  A cycle that loads a parent which is not marked deleted
    writes the status of the parent exactly once, whatever happens to the
    templating, the patchers, the children and the status write itself.  A
    cycle whose load fails, or whose parent is marked deleted, writes no
    status. *)
Theorem Reconcile_status_writes (r : TemplatingReconciler) (req : Request) (s : S) :
  count isStatusWrite (snd (reconcile r req s)) =
    match Get (ReqNamespacedName req) (newParentResource r) s with
    | ((cr, None), _) => if WasDeleted cr then 0%nat else 1%nat
    | ((_, Some _), _) => 0%nat
    end.
Proof.
  destruct (Get (ReqNamespacedName req) (newParentResource r) s) as [[cr [e|]] s0] eqn:Hget.
  - rewrite (Reconcile_get_failed SetConditions _ _ _ Hget). reflexivity.
  - destruct (WasDeleted cr) eqn:Hdel.
    + rewrite (Reconcile_was_deleted SetConditions _ _ _ Hget Hdel). reflexivity.
    + rewrite (Reconcile_loaded SetConditions _ _ _ Hget Hdel). cbn [snd].
      destruct (afterLoad_shape SetConditions r cr s0) as (t0 & c & d & s1 & Heq & Hs & _).
      rewrite Heq. cbn [snd].
      change (Called ?x ?y :: ?l) with ([Called x y] ++ l).
      rewrite !count_app, Hs.
      destruct (report_trace_counts SetConditions cr c d s1) as [-> _]. reflexivity.
Qed.

(** C5.  Whenever a cycle writes the status of the parent, the error that
    [Reconcile] returns is the outcome of that write under the status-update
    label: a failed write is the returned error, and a write that succeeds
    makes the cycle return no error, on the failure branches too. *)
Theorem Reconcile_status_write_error (r : TemplatingReconciler) (req : Request)
    (s : S) cr' out :
  In (Called (CallStatusUpdate cr') out) (snd (reconcile r req s)) ->
  snd (fst (fst (reconcile r req s))) = Wrap out errUpdateResourceStatus /\
  (out = None -> snd (fst (fst (reconcile r req s))) = None) /\
  (forall e, out = Some e ->
     snd (fst (fst (reconcile r req s))) = Some (withMessage e errUpdateResourceStatus)).
Proof.
  intros Hin.
  assert (Hret : snd (fst (fst (reconcile r req s))) = Wrap out errUpdateResourceStatus).
  { destruct (Get (ReqNamespacedName req) (newParentResource r) s) as [[cr [e|]] s0] eqn:Hget.
    - rewrite (Reconcile_get_failed SetConditions _ _ _ Hget) in Hin.
      cbn in Hin. destruct Hin as [Hin|[]]; discriminate.
    - destruct (WasDeleted cr) eqn:Hdel.
      + rewrite (Reconcile_was_deleted SetConditions _ _ _ Hget Hdel) in Hin.
        cbn in Hin. destruct Hin as [Hin|[]]; discriminate.
      + rewrite (Reconcile_loaded SetConditions _ _ _ Hget Hdel) in *. cbn [fst snd] in *.
        destruct (afterLoad_shape SetConditions r cr s0) as (t0 & c & d & s1 & Heq & Hs & _).
        rewrite Heq in *. cbn [fst snd] in *.
        rewrite report_eq in *. cbn [fst snd] in *.
        destruct Hin as [Hin|Hin]; [discriminate|].
        apply in_app_or in Hin. destruct Hin as [Hin|Hin].
        { apply (count_none _ _ Hs) in Hin. discriminate. }
        apply in_app_or in Hin. destruct Hin as [Hin|Hin].
        { destruct (snd (SetConditions cr [c])); cbn in Hin;
            [destruct Hin as [Hin|[]]; discriminate|destruct Hin]. }
        destruct Hin as [Hin|[]]. inversion Hin; subst. reflexivity. }
  split; [exact Hret|]. split.
  - intros ->. exact Hret.
  - intros e ->. exact Hret.
Qed.

(** C9.  Neither [Apply] nor any branch of [Reconcile] issues a delete call:
    whatever the templated output is, and whatever it was in an earlier
    cycle, no [Delete] and no [DeleteAllOf] reaches the store. *)
Theorem never_deletes :
  (forall (o : Unstructured) (s : S), count isDelete (snd (Apply o s)) = 0%nat) /\
  (forall (r : TemplatingReconciler) (req : Request) (s : S),
     count isDelete (snd (reconcile r req s)) = 0%nat).
Proof.
  split.
  - intros o s. destruct (Apply o s) as [[res s'] t] eqn:Happly.
    apply (Apply_trace _ _ Happly).
  - intros r req s.
    destruct (Get (ReqNamespacedName req) (newParentResource r) s) as [[cr [e|]] s0] eqn:Hget.
    + rewrite (Reconcile_get_failed SetConditions _ _ _ Hget). reflexivity.
    + destruct (WasDeleted cr) eqn:Hdel.
      * rewrite (Reconcile_was_deleted SetConditions _ _ _ Hget Hdel). reflexivity.
      * rewrite (Reconcile_loaded SetConditions _ _ _ Hget Hdel). cbn [snd].
        destruct (afterLoad_shape SetConditions r cr s0) as (t0 & c & d & s1 & Heq & _ & Hd).
        rewrite Heq. cbn [snd].
        change (Called ?x ?y :: ?l) with ([Called x y] ++ l).
        rewrite !count_app, Hd.
        destruct (report_trace_counts SetConditions cr c d s1) as [_ ->]. reflexivity.
Qed.

(** C4.  When the templating engine fails, and when the patcher chain fails,
    [Reconcile] sets exactly one condition on the parent, an error condition
    whose message starts with the label of the phase that failed
    ("templating operation failed" or "child resource patchers failed"),
    writes the status, and asks for a requeue after the short wait.  The
    fetch of the parent and the status write are its only store calls: no
    child is applied. *)
Theorem Reconcile_reports_failures (r : TemplatingReconciler) (req : Request)
    (s s0 : S) cr :
  Get (ReqNamespacedName req) (newParentResource r) s = ((cr, None), s0) ->
  WasDeleted cr = false ->
  (forall children e,
     templatingEngine r cr = (children, Some e) ->
     let c := ReconcileError (withMessage e errTemplatingOperation) in
     let cr' := fst (SetConditions cr [c]) in
     let uerr := fst (StatusUpdate cr' s0) in
     reconcile r req s =
       (mkResult false (shortWait r), Wrap uerr errUpdateResourceStatus,
        snd (StatusUpdate cr' s0),
        Called (CallGet (ReqNamespacedName req) (newParentResource r)) None
          :: logOf (snd (SetConditions cr [c])) ++ [Called (CallStatusUpdate cr') uerr]) /\
     Reason c = ReasonReconcileError /\
     Message c = ("templating operation failed: " ++ Error e)%string /\
     prefix errTemplatingOperation (Message c) = true /\
     prefix errChildResourcePatchers (Message c) = false) /\
  (forall children0 children e,
     templatingEngine r cr = (children0, None) ->
     ChainPatch (childResourcePatcher r) cr children0 = (children, Some e) ->
     let c := ReconcileError (withMessage e errChildResourcePatchers) in
     let cr' := fst (SetConditions cr [c]) in
     let uerr := fst (StatusUpdate cr' s0) in
     reconcile r req s =
       (mkResult false (shortWait r), Wrap uerr errUpdateResourceStatus,
        snd (StatusUpdate cr' s0),
        Called (CallGet (ReqNamespacedName req) (newParentResource r)) None
          :: logOf (snd (SetConditions cr [c])) ++ [Called (CallStatusUpdate cr') uerr]) /\
     Reason c = ReasonReconcileError /\
     Message c = ("child resource patchers failed: " ++ Error e)%string /\
     prefix errChildResourcePatchers (Message c) = true /\
     prefix errTemplatingOperation (Message c) = false).
Proof.
  intros Hget Hdel. split.
  - intros children e Hrun c cr' uerr.
    rewrite (Reconcile_loaded SetConditions _ _ _ Hget Hdel).
    unfold afterLoad. rewrite Hrun. rewrite report_eq. cbn [fst snd].
    repeat split; reflexivity.
  - intros children0 children e Hrun Hchain c cr' uerr.
    rewrite (Reconcile_loaded SetConditions _ _ _ Hget Hdel).
    unfold afterLoad. rewrite Hrun, Hchain. rewrite report_eq. cbn [fst snd].
    repeat split; reflexivity.
Qed.

(** C2 (as amended).  When the first K children apply and child K+1 fails,
    [Reconcile] stops at the failing child: after the fetch of the parent the
    trace holds the calls of the first K children, then the calls of the
    failing child, then the status write, and nothing for the children that
    follow.  Exactly K create or patch calls are accepted by the store.  The
    create or patch calls issued number K when the failing child failed in
    its fetch (an error other than not-found) or in its serialization, and
    K+1 when it failed in its own create (after a not-found fetch) or patch
    (after a fetch and a serialization that went through).  The condition
    written with the status
    is an error condition whose message names the failing child by name,
    namespace and kind, followed by the apply error. *)
Theorem Reconcile_fail_fast (r : TemplatingReconciler) (req : Request)
    (s s0 s1 s2 : S) cr children0 pre c post t1 t2 e :
  Get (ReqNamespacedName req) (newParentResource r) s = ((cr, None), s0) ->
  WasDeleted cr = false ->
  templatingEngine r cr = (children0, None) ->
  ChainPatch (childResourcePatcher r) cr children0 = (pre ++ c :: post, None) ->
  AppliedAll pre s0 s1 t1 ->
  Apply c s1 = (Some e, s2, t2) ->
  let cond := ReconcileError (withMessage e (applyMessage c)) in
  let cr' := fst (SetConditions cr [cond]) in
  let uerr := fst (StatusUpdate cr' s2) in
  reconcile r req s =
    (mkResult false (shortWait r), Wrap uerr errUpdateResourceStatus,
     snd (StatusUpdate cr' s2),
     Called (CallGet (ReqNamespacedName req) (newParentResource r)) None
       :: t1 ++ t2 ++ logOf (snd (SetConditions cr [cond]))
       ++ [Called (CallStatusUpdate cr') uerr]) /\
  count isAcceptedWrite (snd (reconcile r req s)) = length pre /\
  (length pre <= count isCreateOrPatch (snd (reconcile r req s)) <= length pre + 1)%nat /\
  count isCreateOrPatch t1 = length pre /\
  Reason cond = ReasonReconcileError /\
  Message cond =
    ("apply failed: " ++ name c ++ "/" ++ namespace c ++ " of type "
       ++ Group (gvk c) ++ "/" ++ Version (gvk c) ++ ", Kind=" ++ Kind (gvk c)
       ++ ": " ++ Error e)%string /\
  (IsNotFound (snd (fst (Get (childKey c) c s1))) = true ->
   count isCreateOrPatch (snd (reconcile r req s)) = Datatypes.S (length pre)) /\
  (IsNotFound (snd (fst (Get (childKey c) c s1))) = false ->
   snd (fst (Get (childKey c) c s1)) <> None ->
   count isCreateOrPatch (snd (reconcile r req s)) = length pre) /\
  (snd (fst (Get (childKey c) c s1)) = None -> snd (Marshal c) <> None ->
   count isCreateOrPatch (snd (reconcile r req s)) = length pre) /\
  (snd (fst (Get (childKey c) c s1)) = None -> snd (Marshal c) = None ->
   count isCreateOrPatch (snd (reconcile r req s)) = Datatypes.S (length pre)).
Proof.
  intros Hget Hdel Hrun Hchain Hall Hc cond cr' uerr.
  assert (Heq : reconcile r req s =
    (mkResult false (shortWait r), Wrap uerr errUpdateResourceStatus,
     snd (StatusUpdate cr' s2),
     Called (CallGet (ReqNamespacedName req) (newParentResource r)) None
       :: t1 ++ t2 ++ logOf (snd (SetConditions cr [cond]))
       ++ [Called (CallStatusUpdate cr') uerr])).
  { rewrite (Reconcile_loaded SetConditions _ _ _ Hget Hdel).
    unfold afterLoad. rewrite Hrun, Hchain.
    rewrite (@applyChildren_stops _ _ SetConditions r cr pre post c s0 s1 s2 t1 t2 e Hall Hc).
    rewrite report_eq. reflexivity. }
  destruct (AppliedAll_trace Hall) as (_ & _ & Hacc & Hcp).
  destruct (Apply_trace _ _ Hc) as (_ & _ & Hle & _ & Hfail).
  assert (Hacc2 : count isAcceptedWrite t2 = 0%nat) by (apply Hfail; discriminate).
  destruct (Apply_issued _ _ Hc) as (Hnf & Hfetch & Hser & Hwrite).
  assert (Hissued : count isCreateOrPatch (snd (reconcile r req s))
                    = (length pre + count isCreateOrPatch t2)%nat).
  { rewrite Heq. cbn [snd].
    change (Called ?x ?y :: ?l) with ([Called x y] ++ l).
    rewrite !count_app, !count_logOf by reflexivity. rewrite Hcp. cbn. lia. }
  assert (Haccepted : count isAcceptedWrite (snd (reconcile r req s)) = length pre).
  { rewrite Heq. cbn [snd].
    change (Called ?x ?y :: ?l) with ([Called x y] ++ l).
    rewrite !count_app, !count_logOf by reflexivity. rewrite Hacc, Hacc2. cbn. lia. }
  split; [exact Heq|]. split; [exact Haccepted|]. split; [lia|].
  split; [exact Hcp|]. split; [reflexivity|]. split.
  { unfold cond, ReconcileError, applyMessage, GVKString, GetName, GetNamespace,
      GetGroupVersionKind, errApply. cbn [Message Error].
    rewrite !append_assoc. reflexivity. }
  rewrite Hissued. repeat split.
  - intros H. rewrite (Hnf H). lia.
  - intros H1 H2. rewrite (Hfetch H1 H2). lia.
  - intros H1 H2. rewrite (Hser H1 H2). lia.
  - intros H1 H2. rewrite (Hwrite H1 H2). lia.
Qed.

End Claims.

(** * The in-memory store: a merge patch of an object with itself *)

Module MemStoreFacts.

Import MemStore.

(** Induction over values that reaches into arrays and objects. *)
Section ValueInduction.

Variable P : Value -> Prop.
Hypothesis Hnull : P VNull.
Hypothesis Hbool : forall b, P (VBool b).
Hypothesis Hnum : forall n, P (VNum n).
Hypothesis Hstr : forall s, P (VStr s).
Hypothesis Harr : forall items, Forall P items -> P (VArr items).
Hypothesis Hobj : forall ms, Forall (fun kv => P (snd kv)) ms -> P (VObj ms).
Hypothesis Hbad : P VUnsupported.

Fixpoint Value_nested_ind (v : Value) : P v :=
  match v with
  | VNull => Hnull
  | VBool b => Hbool b
  | VNum n => Hnum n
  | VStr s => Hstr s
  | VArr items =>
      Harr ((fix each (l : list Value) : Forall P l :=
               match l with
               | [] => Forall_nil P
               | x :: l' => Forall_cons x (Value_nested_ind x) (each l')
               end) items)
  | VObj ms =>
      Hobj ((fix each (l : list (string * Value)) : Forall (fun kv => P (snd kv)) l :=
               match l with
               | [] => Forall_nil _
               | (k, x) :: l' =>
                   @Forall_cons _ (fun kv => P (snd kv)) (k, x) l' (Value_nested_ind x) (each l')
               end) ms)
  | VUnsupported => Hbad
  end.

End ValueInduction.

Lemma plain_members (ms : list (string * Value)) :
  plain (VObj ms) <->
  NoDup (map fst ms) /\ Forall (fun kv => snd kv <> VNull /\ plain (snd kv)) ms.
Proof.
  cbn [plain]. split; intros [Hnd Hall]; (split; [exact Hnd|]); clear Hnd.
  - induction ms as [|[k x] ms IH]; constructor.
    + cbn [snd]. destruct Hall as (Hx & Hp & _). split; assumption.
    + apply IH. apply Hall.
  - induction ms as [|[k x] ms IH]; [exact I|].
    inversion Hall as [|? ? [Hx Hp] Hrest]; subst. cbn [snd] in *.
    split; [exact Hx|]. split; [exact Hp|]. exact (IH Hrest).
Qed.

Lemma lookupMember_in (k : string) (v : Value) (ms : list (string * Value)) :
  NoDup (map fst ms) -> In (k, v) ms -> lookupMember k ms = Some v.
Proof.
  induction ms as [|[k' v'] ms IH]; cbn; intros Hnd Hin; [destruct Hin|].
  inversion Hnd as [|? ? Hfresh Hnd']; subst.
  destruct Hin as [Heq|Hin].
  - inversion Heq; subst. now rewrite String.eqb_refl.
  - destruct (String.eqb_spec k k') as [->|Hne].
    + exfalso. apply Hfresh. apply (in_map fst) in Hin. exact Hin.
    + now apply IH.
Qed.

Lemma setMember_same (k : string) (v : Value) (ms : list (string * Value)) :
  lookupMember k ms = Some v -> setMember k v ms = ms.
Proof.
  induction ms as [|[k' v'] ms IH]; cbn; intros Hl; [discriminate|].
  destruct (String.eqb_spec k k') as [->|Hne].
  - now inversion Hl.
  - now rewrite IH.
Qed.

(** Merging members that the target already holds, none of them null,
    leaves the target as it is. *)
Lemma mergeMembers_held (merge : Value -> Value -> Value)
    (patch target : list (string * Value)) :
  Forall (fun kv => snd kv <> VNull /\
                    lookupMember (fst kv) target = Some (snd kv) /\
                    merge (snd kv) (snd kv) = snd kv) patch ->
  mergeMembers merge patch target = target.
Proof.
  induction 1 as [|[k v] patch (Hv & Hl & Hm) Hrest IH]; cbn [mergeMembers]; [reflexivity|].
  cbn [fst snd] in *. rewrite Hl, Hm, (setMember_same _ _ Hl).
  destruct v; try exact IH. congruence.
Qed.

Lemma MergePatch_self (v : Value) : plain v -> MergePatch v v = v.
Proof.
  induction v as [| | | | |ms IH|] using Value_nested_ind; try reflexivity.
  intros Hplain. apply plain_members in Hplain. destruct Hplain as [Hnd Hall].
  cbn [MergePatch]. f_equal. apply mergeMembers_held.
  rewrite Forall_forall in *. intros [k x] Hin. cbn [fst snd].
  destruct (Hall _ Hin) as [Hx Hp]. cbn [snd] in *.
  repeat split; auto.
  - now apply lookupMember_in.
  - apply (IH _ Hin). exact Hp.
Qed.

Lemma hasIdentity_self (o : Unstructured) :
  hasIdentity (gvk o) (namespace o) (name o) o = true.
Proof. unfold hasIdentity, gvkEqb. now rewrite !String.eqb_refl. Qed.

Lemma mergeObject_self (o : Unstructured) :
  plain (VObj (fields o)) -> mergeObject o (mkRawJSON o) = o.
Proof.
  intros Hplain. unfold mergeObject. cbn [document].
  rewrite (MergePatch_self _ Hplain). destruct o; reflexivity.
Qed.

Lemma Apply_on_empty (o : Unstructured) :
  encodable (VObj (fields o)) = true ->
  Apply o ([] : Store) =
    (None, [o],
     [Called (CallGet (childKey o) o) (Some errNotFound); Called (CallCreate o) None]).
Proof.
  intros Henc.
  assert (Hw : Wrap None errCreateChildResource = None) by reflexivity.
  rewrite <- Hw at 1.
  apply Apply_not_found with (existing := o) (s1 := []); try reflexivity.
  cbn. unfold create, onWire. now rewrite Henc.
Qed.

Lemma Apply_on_stored (o : Unstructured) :
  encodable (VObj (fields o)) = true ->
  plain (VObj (fields o)) ->
  Apply o ([o] : Store) =
    (None, [o],
     [Called (CallGet (childKey o) o) None;
      Called (CallPatch o (ConstantPatch MergePatchType (Some (mkRawJSON o)))) None]).
Proof.
  intros Henc Hplain.
  apply Apply_found with (s1 := [o]).
  - cbn. unfold get, find, onWire.
    cbn [List.find childKey Namespace Name GetNamespace GetName].
    now rewrite hasIdentity_self, Henc.
  - unfold Marshal. now rewrite Henc.
  - cbn. unfold patch, find, onWire. cbn [List.find patchType patchData document].
    rewrite hasIdentity_self, Henc, (mergeObject_self _ Hplain).
    cbn [replace]. unfold sameIdentity. now rewrite hasIdentity_self.
Qed.

Lemma ApplyTimes_on_stored (o : Unstructured) (n : nat) :
  encodable (VObj (fields o)) = true ->
  plain (VObj (fields o)) ->
  ApplyTimes n o ([o] : Store) =
    (repeat None n, [o],
     concat (repeat
       [Called (CallGet (childKey o) o) None;
        Called (CallPatch o (ConstantPatch MergePatchType (Some (mkRawJSON o)))) None] n)).
Proof.
  intros Henc Hplain. induction n as [|n IH]; [reflexivity|].
  cbn [ApplyTimes repeat concat]. unfold bind at 1.
  rewrite (Apply_on_stored o Henc Hplain).
  unfold bind at 1. rewrite IH. unfold ret. rewrite app_nil_r. reflexivity.
Qed.

(** C8 (as amended).  For a child that serializes and whose content holds no
    null member (and, as in a Go map, names each member once), [Apply] is
    idempotent against the in-memory store.  On the
    empty store the first call fetches, is told not-found, and creates the
    child.  The second call fetches the stored child and issues one merge
    patch carrying the serialized child; the patch is accepted and leaves the
    store as it was, since merging the child into itself changes nothing.
    Every further call does the same: after any number of calls the store
    holds the child as created, and the trace holds one create followed by
    one such patch per further call. *)
Theorem Apply_idempotent (o : Unstructured) :
  encodable (VObj (fields o)) = true ->
  plain (VObj (fields o)) ->
  let fetch := CallGet (childKey o) o in
  let mergePatch := CallPatch o (ConstantPatch MergePatchType (Some (mkRawJSON o))) in
  Apply o ([] : Store) =
    (None, [o], [Called fetch (Some errNotFound); Called (CallCreate o) None]) /\
  Apply o ([o] : Store) = (None, [o], [Called fetch None; Called mergePatch None]) /\
  mergeObject o (mkRawJSON o) = o /\
  forall n,
    ApplyTimes (Datatypes.S n) o ([] : Store) =
      (repeat None (Datatypes.S n), [o],
       [Called fetch (Some errNotFound); Called (CallCreate o) None]
         ++ concat (repeat [Called fetch None; Called mergePatch None] n)).
Proof.
  intros Henc Hplain fetch mergePatch.
  split; [apply (Apply_on_empty o Henc)|].
  split; [apply (Apply_on_stored o Henc Hplain)|].
  split; [apply (mergeObject_self _ Hplain)|].
  intros n. cbn [ApplyTimes]. unfold bind at 1. rewrite (Apply_on_empty o Henc).
  unfold bind at 1. rewrite (ApplyTimes_on_stored o n Henc Hplain).
  unfold ret. rewrite app_nil_r. reflexivity.
Qed.

End MemStoreFacts.

(** * The claims at concrete inputs *)

Module Runs.

Import Sample.

#[local] Abbreviation memReconcile :=
  (Reconcile (S := MemStore.Store) SetConditionsModel).
#[local] Abbreviation scriptReconcile :=
  (Reconcile (S := Scripted.Script) SetConditionsModel).

(** ** The end-to-end scenarios of the specification *)

(** Neither child is in the store: two creates, A then B, a success
    condition, and a requeue after the long wait. *)
Example scenario_two_creates :
  memReconcile (reconciler [childA; childB]) request [parent] =
    (mkResult false defaultLongWait, None,
     [mkUnstructured wordpress "site" "default" None [ReconcileSuccess] [];
      childA; childB],
     [Called fetchParent None;
      Called (CallGet (childKey childA) childA) (Some MemStore.errNotFound);
      Called (CallCreate childA) None;
      Called (CallGet (childKey childB) childB) (Some MemStore.errNotFound);
      Called (CallCreate childB) None;
      Called (CallStatusUpdate
                (mkUnstructured wordpress "site" "default" None [ReconcileSuccess] []))
             None]).
Proof. reflexivity. Qed.

(** The store already holds A with another content: one merge patch for A,
    one create for B, a success condition. *)
Example scenario_patch_then_create :
  let storedA := mkUnstructured deployment "a" "default" None []
                   [("spec", VObj [("replicas", VNum 5); ("paused", VBool true)])] in
  let mergedA := mkUnstructured deployment "a" "default" None []
                   [("spec", VObj [("replicas", VNum 1); ("paused", VBool true);
                                   ("image", VStr "wordpress")])] in
  let parent' := mkUnstructured wordpress "site" "default" None [ReconcileSuccess] [] in
  memReconcile (reconciler [childA; childB]) request [parent; storedA] =
    (mkResult false defaultLongWait, None,
     [parent'; mergedA; childB],
     [Called fetchParent None;
      Called (CallGet (childKey childA) childA) None;
      Called (CallPatch storedA (mergePatchOf childA)) None;
      Called (CallGet (childKey childB) childB) (Some MemStore.errNotFound);
      Called (CallCreate childB) None;
      Called (CallStatusUpdate parent') None]).
Proof. reflexivity. Qed.

(** The second step of the patcher chain fails: no child is applied, one
    status update records the error, and the requeue is the short wait. *)
Example scenario_chain_fails :
  let parent' :=
    mkUnstructured wordpress "site" "default" None
      [ReconcileError (withMessage errBoom errChildResourcePatchers)] [] in
  memReconcile failingChain request [parent] =
    (mkResult false defaultShortWait, None, [parent'],
     [Called fetchParent None; Called (CallStatusUpdate parent') None]).
Proof. reflexivity. Qed.

(** A child that leaves the templated output stays in the store: the second
    cycle renders A only, and B is still there. *)
Example orphan_is_kept :
  let after1 := snd (fst (memReconcile (reconciler [childA; childB]) request [parent])) in
  let after2 := snd (fst (memReconcile (reconciler [childA]) request after1)) in
  MemStore.find deployment "default" "b" after2 = Some childB.
Proof. reflexivity. Qed.

(** ** Runs of the confirmed claims *)

Lemma Apply_protocol_witness :
  Apply childA ([] : MemStore.Store) =
    (None, [childA],
     [Called (CallGet (childKey childA) childA) (Some MemStore.errNotFound);
      Called (CallCreate childA) None]) /\
  Apply childA ([Scripted.Respond None (Some errRefused)] : Scripted.Script) =
    (Some (withMessage errRefused errGetChildResource), [],
     [Called (CallGet (childKey childA) childA) (Some errRefused)]) /\
  Apply childA ([Scripted.Respond (Some childB) None] : Scripted.Script) =
    (None, [],
     [Called (CallGet (childKey childA) childA) None;
      Called (CallPatch childB (mergePatchOf childA)) None]).
Proof.
  split; [|split].
  - exact (proj1 (@Apply_protocol MemStore.Store MemStore.client childA [] []
                    childA (Some MemStore.errNotFound) eq_refl)
             eq_refl None [childA] eq_refl).
  - exact (proj1 (proj2 (@Apply_protocol Scripted.Script Scripted.client childA
                           [Scripted.Respond None (Some errRefused)] []
                           childA (Some errRefused) eq_refl))
             eq_refl errRefused eq_refl).
  - exact (proj2 (proj2 (@Apply_protocol Scripted.Script Scripted.client childA
                           [Scripted.Respond (Some childB) None] []
                           childB None eq_refl))
             eq_refl (Some (mkRawJSON childA)) eq_refl None [] eq_refl).
Defined.

Lemma Apply_marshal_failure_witness :
  Marshal childNaN = (None, Some errUnsupportedValue) /\
  Apply childNaN ([storedC] : MemStore.Store) =
    (Some errUnsupportedValue, [storedC],
     [Called (CallGet (childKey childNaN) childNaN) None]).
Proof.
  split; [reflexivity|].
  exact (proj1 (@Apply_marshal_failure MemStore.Store MemStore.client childNaN
                  [storedC] [storedC] storedC None errUnsupportedValue
                  eq_refl eq_refl)).
Defined.

Lemma Reconcile_parent_not_found_witness :
  memReconcile (reconciler [childA]) request [] =
    (mkResult false 0, None, [], [Called fetchParent (Some MemStore.errNotFound)]).
Proof.
  exact (@Reconcile_parent_not_found MemStore.Store MemStore.client SetConditionsModel
           (reconciler [childA]) request [] []
           (newParentResource (reconciler [childA])) (Some MemStore.errNotFound)
           eq_refl eq_refl).
Defined.

Lemma Reconcile_parent_deleted_witness :
  WasDeleted deletedParent = true /\
  memReconcile (reconciler [childA]) request [deletedParent] =
    (mkResult false 0, None, [deletedParent], [Called fetchParent None]).
Proof.
  split; [reflexivity|].
  exact (proj1 (@Reconcile_parent_deleted MemStore.Store MemStore.client SetConditionsModel
                  (reconciler [childA]) request [deletedParent] [deletedParent]
                  deletedParent eq_refl eq_refl)).
Defined.

Lemma Reconcile_status_write_error_witness :
  let script := [Scripted.Respond (Some parent) None;
                 Scripted.Respond None (Some errRefused)] in
  snd (fst (fst (scriptReconcile failingEngine request script))) =
    Some (withMessage errRefused errUpdateResourceStatus).
Proof.
  intros script.
  refine (proj1 (@Reconcile_status_write_error Scripted.Script Scripted.client
                   SetConditionsModel failingEngine request script
                   (parentWith (ReconcileError (withMessage errBoom errTemplatingOperation)))
                   (Some errRefused) _)).
  right. left. reflexivity.
Defined.

Lemma Reconcile_reports_failures_witness :
  memReconcile failingEngine request [parent] =
    (mkResult false defaultShortWait, None,
     [parentWith (ReconcileError (withMessage errBoom errTemplatingOperation))],
     [Called fetchParent None;
      Called (CallStatusUpdate
                (parentWith (ReconcileError (withMessage errBoom errTemplatingOperation))))
             None]) /\
  memReconcile failingChain request [parent] =
    (mkResult false defaultShortWait, None,
     [parentWith (ReconcileError (withMessage errBoom errChildResourcePatchers))],
     [Called fetchParent None;
      Called (CallStatusUpdate
                (parentWith (ReconcileError (withMessage errBoom errChildResourcePatchers))))
             None]).
Proof.
  split.
  - exact (proj1 (proj1 (@Reconcile_reports_failures MemStore.Store MemStore.client
                           SetConditionsModel failingEngine request [parent] [parent] parent
                           eq_refl eq_refl)
                    [] errBoom eq_refl)).
  - exact (proj1 (proj2 (@Reconcile_reports_failures MemStore.Store MemStore.client
                           SetConditionsModel failingChain request [parent] [parent] parent
                           eq_refl eq_refl)
                    [childA] [] errBoom eq_refl eq_refl)).
Defined.

(** A is created, C fails to serialize, B is never reached. *)
Lemma Reconcile_fail_fast_witness :
  let r := reconciler [childA; childNaN; childB] in
  let store : MemStore.Store := [parent; storedC] in
  count isAcceptedWrite (snd (memReconcile r request store)) = 1%nat /\
  count isCreateOrPatch (snd (memReconcile r request store)) = 1%nat /\
  fst (fst (memReconcile r request store)) = (mkResult false defaultShortWait, None) /\
  snd (memReconcile r request store) =
    [Called fetchParent None;
     Called (CallGet (childKey childA) childA) (Some MemStore.errNotFound);
     Called (CallCreate childA) None;
     Called (CallGet (childKey childNaN) childNaN) None;
     Called (CallStatusUpdate
               (parentWith (ReconcileError
                  (withMessage errUnsupportedValue (applyMessage childNaN)))))
            None].
Proof.
  intros r store.
  pose proof (@Reconcile_fail_fast MemStore.Store MemStore.client SetConditionsModel
                r request store store [parent; storedC; childA] [parent; storedC; childA]
                parent [childA; childNaN; childB] [childA] childNaN [childB]
                _ _ errUnsupportedValue
                eq_refl eq_refl eq_refl eq_refl
                (@AppliedCons MemStore.Store MemStore.client childA [] store
                   [parent; storedC; childA] _ [parent; storedC; childA] []
                   eq_refl (AppliedNil [parent; storedC; childA]))
                eq_refl) as H.
  cbv zeta in H. destruct H as (Heq & Hacc & _ & _ & _ & _ & _ & _ & Hser & _).
  split; [exact Hacc|].
  split; [apply Hser; [reflexivity|discriminate]|].
  rewrite Heq. split; reflexivity.
Defined.

Lemma Apply_idempotent_witness :
  ApplyTimes 3 childA ([] : MemStore.Store) =
    ([None; None; None], [childA],
     [Called (CallGet (childKey childA) childA) (Some MemStore.errNotFound);
      Called (CallCreate childA) None;
      Called (CallGet (childKey childA) childA) None;
      Called (CallPatch childA (mergePatchOf childA)) None;
      Called (CallGet (childKey childA) childA) None;
      Called (CallPatch childA (mergePatchOf childA)) None]).
Proof.
  assert (Hplain : MemStore.plain (VObj (fields childA))).
  { cbn. repeat split; try discriminate; repeat constructor;
      cbn; intuition discriminate. }
  exact (proj2 (proj2 (proj2 (MemStoreFacts.Apply_idempotent childA eq_refl Hplain))) 2%nat).
Defined.

(** ** Runs that the claims as first stated do not survive *)

(** C1 as stated has patch errors returned under a label of their own.  Here
    the fetch succeeds, the store refuses the patch, and [Apply] returns the
    error of the store as it is: no label wraps it. *)
Lemma Apply_patch_error_unlabelled :
  let script : Scripted.Script :=
    [Scripted.Respond (Some childB) None; Scripted.Respond None (Some errRefused)] in
  Apply childA script =
    (Some errRefused, [],
     [Called (CallGet (childKey childA) childA) None;
      Called (CallPatch childB (mergePatchOf childA)) (Some errRefused)]) /\
  ~ (exists label, fst (fst (Apply childA script)) = Wrap (Some errRefused) label).
Proof.
  split; [reflexivity|].
  intros [label H]. discriminate H.
Qed.

(** C2 as stated counts exactly K create or patch calls on the store.  Here
    K is 0: the first child fails, in its create.  That create is a call the
    store has seen, so one create call is observed, not zero. *)
Lemma Reconcile_counts_failed_create :
  let r := reconciler [childA; childB] in
  let script : Scripted.Script :=
    [Scripted.Respond (Some parent) None;
     Scripted.Respond None (Some errGone);
     Scripted.Respond None (Some errRefused);
     Scripted.Respond None None] in
  let afterLoad : Scripted.Script :=
    [Scripted.Respond None (Some errGone);
     Scripted.Respond None (Some errRefused);
     Scripted.Respond None None] in
  AppliedAll [] afterLoad afterLoad [] /\
  fst (fst (Apply childA afterLoad)) = Some (withMessage errRefused errCreateChildResource) /\
  snd (scriptReconcile r request script) =
    [Called fetchParent None;
     Called (CallGet (childKey childA) childA) (Some errGone);
     Called (CallCreate childA) (Some errRefused);
     Called (CallStatusUpdate
               (parentWith (ReconcileError
                  (withMessage (withMessage errRefused errCreateChildResource)
                     (applyMessage childA)))))
            None] /\
  count isCreateOrPatch (snd (scriptReconcile r request script)) = 1%nat /\
  count isCreateOrPatch (snd (scriptReconcile r request script))
    <> length ([] : list Unstructured).
Proof.
  cbv zeta. split; [constructor|]. split; [reflexivity|]. split; [reflexivity|].
  split; [reflexivity|]. discriminate.
Qed.

(** C3 as stated has the status written once in every cycle.  A cycle whose
    parent is not in the store, a cycle whose load fails otherwise, and a
    cycle whose parent is marked deleted write no status at all. *)
Lemma Reconcile_without_status_write :
  count isStatusWrite (snd (memReconcile (reconciler [childA]) request [])) = 0%nat /\
  count isStatusWrite
    (snd (scriptReconcile (reconciler [childA]) request
            [Scripted.Respond None (Some errRefused)])) = 0%nat /\
  snd (fst (fst (scriptReconcile (reconciler [childA]) request
                   [Scripted.Respond None (Some errRefused)])))
    = Some (withMessage errRefused errGetResource) /\
  count isStatusWrite
    (snd (memReconcile (reconciler [childA]) request [deletedParent])) = 0%nat.
Proof. repeat split. Qed.

(** C8 as stated has the second call issue a merge patch that changes
    nothing, for every child.  A child that does not serialize never gets
    that far: the create of the first call is refused, the second call is
    told not-found again and issues a second create, and no patch follows.
    For a child with a null member the patch of the second call removes that
    member from the stored object. *)
Lemma Apply_twice_not_always_noop :
  ApplyTimes 2 childNaN ([] : MemStore.Store) =
    ([Some (withMessage errUnsupportedValue errCreateChildResource);
      Some (withMessage errUnsupportedValue errCreateChildResource)], [],
     [Called (CallGet (childKey childNaN) childNaN) (Some MemStore.errNotFound);
      Called (CallCreate childNaN) (Some errUnsupportedValue);
      Called (CallGet (childKey childNaN) childNaN) (Some MemStore.errNotFound);
      Called (CallCreate childNaN) (Some errUnsupportedValue)]) /\
  snd (fst (ApplyTimes 1 childNull ([] : MemStore.Store))) = [childNull] /\
  snd (ApplyTimes 2 childNull ([] : MemStore.Store)) =
    [Called (CallGet (childKey childNull) childNull) (Some MemStore.errNotFound);
     Called (CallCreate childNull) None;
     Called (CallGet (childKey childNull) childNull) None;
     Called (CallPatch childNull (mergePatchOf childNull)) None] /\
  snd (fst (ApplyTimes 2 childNull ([] : MemStore.Store))) =
    [mkUnstructured deployment "d" "default" None [] [("spec", VObj [])]] /\
  snd (fst (ApplyTimes 2 childNull ([] : MemStore.Store)))
    <> snd (fst (ApplyTimes 1 childNull ([] : MemStore.Store))).
Proof.
  split; [reflexivity|]. split; [reflexivity|]. split; [reflexivity|].
  split; [reflexivity|]. cbn. discriminate.
Qed.

End Runs.

(** * Beyond the claims: what else the code shows *)

Lemma fetches_app (a b : list Event) : fetches (a ++ b) = fetches a ++ fetches b.
Proof. unfold fetches. apply flat_map_app. Qed.

Lemma fetches_logOf (err : option error) : fetches (logOf err) = [].
Proof. destruct err; reflexivity. Qed.

Lemma calls_logOf (err : option error) : forallb isReconcilerCall (logOf err) = true.
Proof. destruct err; reflexivity. Qed.

Lemma Marshal_ok (o : Unstructured) raw :
  Marshal o = (raw, None) -> raw = Some (mkRawJSON o).
Proof.
  unfold Marshal. destruct (encodable (VObj (fields o))); intros H; inversion H; reflexivity.
Qed.

Section MoreLoopFacts.

Context {S : Type} {kube : Client S}.
Variable SetConditions : Unstructured -> list Condition -> Unstructured * option error.

(** More of what one [Apply] leaves in the trace. *)
Lemma Apply_calls (o : Unstructured) (s s' : S) res t :
  Apply o s = (res, s', t) ->
  forallb isReconcilerCall t = true /\
  count isLog t = 0%nat /\
  fetches t = [(childKey o, o)] /\
  (length t <= 2)%nat.
Proof.
  intros Hrun.
  destruct (Apply_inv o s) as (existing & err & s1 & Hget & Hcases).
  destruct Hcases as [(Hnf & cerr & s2 & Hc & Heq)
                     |[(e & -> & Hnf & Heq)
                     |[(-> & raw & e & Hm & Heq)
                     |(-> & raw & perr & s2 & Hm & Hp & Heq)]]];
    rewrite Heq in Hrun; inversion Hrun; subst; clear Hrun;
    try (repeat split; cbn; lia).
  rewrite (Marshal_ok _ Hm). repeat split; cbn; lia.
Qed.

Lemma applyChildren_facts (r : TemplatingReconciler) (cr : Unstructured)
    (l : list Unstructured) (s : S) :
  exists t0 c d s1 n,
    applyChildren SetConditions r cr l s =
      (fst (fst (report SetConditions cr c d s1)),
       snd (fst (report SetConditions cr c d s1)),
       t0 ++ snd (report SetConditions cr c d s1)) /\
    forallb isReconcilerCall t0 = true /\
    count isLog t0 = 0%nat /\
    (count isCreateOrPatch t0 <= length l)%nat /\
    fetches t0 = map (fun o => (childKey o, o)) (firstn n l) /\
    (reportsSuccess r c d \/ exists o, In o l /\ reportsFailure r (applyMessage o) c d).
Proof.
  revert s. induction l as [|o rest IH]; intros s.
  - exists [], ReconcileSuccess, (longWait r), s, 0%nat. cbn [applyChildren app].
    destruct (report _ _ _ _ s) as [[res s4] t4]. repeat split; auto.
    left. split; reflexivity.
  - cbn [applyChildren]. unfold bind at 1.
    destruct (Apply o s) as [[res s1] t1] eqn:Happly.
    destruct (Apply_calls _ _ Happly) as (Hk & Hl & Hf & _).
    destruct (Apply_trace _ _ Happly) as (_ & _ & Hcp & _).
    destruct res as [e|].
    + exists t1, (ReconcileError (withMessage e (applyMessage o))), (shortWait r), s1, 1%nat.
      destruct (report _ _ _ _ s1) as [[res s4] t4]. cbn [fst snd length firstn map].
      repeat split; auto; try lia.
      right. exists o. split; [now left|]. exists e. split; reflexivity.
    + destruct (IH s1) as (t0 & c & d & s2 & n & Heq & Hk0 & Hl0 & Hcp0 & Hf0 & Hout).
      exists (t1 ++ t0), c, d, s2, (Datatypes.S n). rewrite Heq. cbn [fst snd].
      rewrite forallb_app, !count_app, fetches_app, Hk, Hk0, Hl, Hl0, Hf, Hf0, <- app_assoc.
      cbn [length firstn map app]. repeat split; auto; try lia.
      destruct Hout as [Hok|(o' & Hin & Hfail)]; [now left|].
      right. exists o'. split; [now right|exact Hfail].
Qed.

End MoreLoopFacts.

Section MoreReconcileFacts.

Context {S : Type} {kube : Client S}.
Variable SetConditions : Unstructured -> list Condition -> Unstructured * option error.

Lemma afterLoad_facts (r : TemplatingReconciler) (cr : Unstructured) (s0 : S) :
  exists t0 c d s1,
    afterLoad SetConditions r cr s0 =
      (fst (fst (report SetConditions cr c d s1)),
       snd (fst (report SetConditions cr c d s1)),
       t0 ++ snd (report SetConditions cr c d s1)) /\
    forallb isReconcilerCall t0 = true /\
    count isLog t0 = 0%nat /\
    (reportsSuccess r c d \/ exists label, phaseLabel label /\ reportsFailure r label c d).
Proof.
  unfold afterLoad.
  destruct (templatingEngine r cr) as [children [e|]].
  - exists [], (ReconcileError (withMessage e errTemplatingOperation)), (shortWait r), s0.
    destruct (report _ _ _ _ s0) as [[res s1] t1]. repeat split.
    right. exists errTemplatingOperation. split; [now left|]. exists e. split; reflexivity.
  - destruct (ChainPatch (childResourcePatcher r) cr children) as [children' [e|]].
    + exists [], (ReconcileError (withMessage e errChildResourcePatchers)), (shortWait r), s0.
      destruct (report _ _ _ _ s0) as [[res s1] t1]. repeat split.
      right. exists errChildResourcePatchers. split; [right; now left|].
      exists e. split; reflexivity.
    + destruct (applyChildren_facts SetConditions r cr children' s0)
        as (t0 & c & d & s1 & n & Heq & Hk & Hl & _ & _ & Hout).
      exists t0, c, d, s1. rewrite Heq. repeat split; auto.
      destruct Hout as [Hok|(o & _ & Hfail)]; [now left|].
      right. exists (applyMessage o). split; [|exact Hfail].
      right. right. now exists o.
Qed.

End MoreReconcileFacts.

(** * Further properties of the reconciler, for any store *)

Section Further.

Context {S : Type} {kube : Client S}.
Variable SetConditions : Unstructured -> list Condition -> Unstructured * option error.

#[local] Abbreviation reconcile := (Reconcile SetConditions).

(** X1.  When every child applies, [Reconcile] sets the success condition,
    writes the status and asks for a requeue after the long wait.  The trace
    is the fetch of the parent, the calls of the children in order, and the
    status write; the store accepted one create or patch per child. *)
Theorem Reconcile_success (r : TemplatingReconciler) (req : Request)
    (s s0 s1 : S) cr children0 children t1 :
  Get (ReqNamespacedName req) (newParentResource r) s = ((cr, None), s0) ->
  WasDeleted cr = false ->
  templatingEngine r cr = (children0, None) ->
  ChainPatch (childResourcePatcher r) cr children0 = (children, None) ->
  AppliedAll children s0 s1 t1 ->
  let cr' := fst (SetConditions cr [ReconcileSuccess]) in
  let uerr := fst (StatusUpdate cr' s1) in
  reconcile r req s =
    (mkResult false (longWait r), Wrap uerr errUpdateResourceStatus,
     snd (StatusUpdate cr' s1),
     Called (CallGet (ReqNamespacedName req) (newParentResource r)) None
       :: t1 ++ logOf (snd (SetConditions cr [ReconcileSuccess]))
       ++ [Called (CallStatusUpdate cr') uerr]) /\
  count isAcceptedWrite (snd (reconcile r req s)) = length children /\
  count isCreateOrPatch (snd (reconcile r req s)) = length children.
Proof.
  intros Hget Hdel Hrun Hchain Hall cr' uerr.
  assert (Heq : reconcile r req s =
    (mkResult false (longWait r), Wrap uerr errUpdateResourceStatus,
     snd (StatusUpdate cr' s1),
     Called (CallGet (ReqNamespacedName req) (newParentResource r)) None
       :: t1 ++ logOf (snd (SetConditions cr [ReconcileSuccess]))
       ++ [Called (CallStatusUpdate cr') uerr])).
  { rewrite (Reconcile_loaded SetConditions _ _ _ Hget Hdel).
    unfold afterLoad. rewrite Hrun, Hchain.
    rewrite (applyChildren_all SetConditions r cr Hall).
    rewrite report_eq. reflexivity. }
  destruct (AppliedAll_trace Hall) as (_ & _ & Hacc & Hcp).
  rewrite Heq. cbn [snd].
  change (Called ?x ?y :: ?l) with ([Called x y] ++ l).
  rewrite !count_app, !count_logOf by reflexivity.
  rewrite Hacc, Hcp. cbn. repeat split; lia.
Qed.

(** X2.  When the load of the parent fails with anything but not-found,
    [Reconcile] returns that error under the label of the parent load, with
    no requeue directive of its own; the failed fetch is its only store
    call. *)
Theorem Reconcile_load_error (r : TemplatingReconciler) (req : Request)
    (s s0 : S) cr e :
  Get (ReqNamespacedName req) (newParentResource r) s = ((cr, Some e), s0) ->
  IsNotFound (Some e) = false ->
  reconcile r req s =
    (mkResult false 0, Some (withMessage e errGetResource), s0,
     [Called (CallGet (ReqNamespacedName req) (newParentResource r)) (Some e)]).
Proof.
  intros Hget Hnf. rewrite (Reconcile_get_failed SetConditions _ _ _ Hget).
  unfold IgnoreNotFound. rewrite Hnf. reflexivity.
Qed.

(** X3.  An error returned by [Reconcile] comes from one of two store calls:
    the load of the parent (an error other than not-found, under the label of
    the load) or the status write (under the label of the status update).  A
    failure of the templating, of the patchers or of a child is never the
    returned error. *)
Theorem Reconcile_error_origin (r : TemplatingReconciler) (req : Request) (s : S) err :
  snd (fst (fst (reconcile r req s))) = Some err ->
  (exists e,
     snd (fst (Get (ReqNamespacedName req) (newParentResource r) s)) = Some e /\
     IsNotFound (Some e) = false /\
     err = withMessage e errGetResource) \/
  (exists e cr',
     In (Called (CallStatusUpdate cr') (Some e)) (snd (reconcile r req s)) /\
     err = withMessage e errUpdateResourceStatus).
Proof.
  intros Hret.
  destruct (Get (ReqNamespacedName req) (newParentResource r) s) as [[cr [e|]] s0] eqn:Hget.
  - left. rewrite (Reconcile_get_failed SetConditions _ _ _ Hget) in Hret.
    cbn [fst snd] in Hret. unfold IgnoreNotFound in Hret.
    destruct (IsNotFound (Some e)) eqn:Hnf; [discriminate|].
    exists e. cbn in Hret. inversion Hret. repeat split; auto.
  - destruct (WasDeleted cr) eqn:Hdel.
    + rewrite (Reconcile_was_deleted SetConditions _ _ _ Hget Hdel) in Hret. discriminate.
    + right. rewrite (Reconcile_loaded SetConditions _ _ _ Hget Hdel) in *.
      cbn [fst snd] in *.
      destruct (afterLoad_shape SetConditions r cr s0) as (t0 & c & d & s1 & Heq & _).
      rewrite Heq in *. cbn [fst snd] in *. rewrite report_eq in *. cbn [fst snd] in *.
      destruct (fst (StatusUpdate (fst (SetConditions cr [c])) s1)) as [e|]; [|discriminate].
      exists e, (fst (SetConditions cr [c])). inversion Hret. split; [|reflexivity].
      right. apply in_or_app. right. apply in_or_app. right. now left.
Qed.

(** X4.  Once the parent is loaded and not deleted, the cycle ends in the
    status write, and what it writes goes with what it returns: either the
    success condition and the long wait, or an error condition and the short
    wait.  The message of an error condition starts with the label of the
    phase that failed, or with the message that names the failing child. *)
Theorem Reconcile_condition_and_wait (r : TemplatingReconciler) (req : Request)
    (s s0 : S) cr :
  Get (ReqNamespacedName req) (newParentResource r) s = ((cr, None), s0) ->
  WasDeleted cr = false ->
  exists t0 c d out,
    snd (reconcile r req s) =
      t0 ++ [Called (CallStatusUpdate (fst (SetConditions cr [c]))) out] /\
    fst (fst (fst (reconcile r req s))) = mkResult false d /\
    ((c = ReconcileSuccess /\ d = longWait r) \/
     (exists label e,
        phaseLabel label /\
        c = ReconcileError (withMessage e label) /\
        Message c = (label ++ ": " ++ Error e)%string /\
        d = shortWait r)).
Proof.
  intros Hget Hdel.
  rewrite (Reconcile_loaded SetConditions _ _ _ Hget Hdel). cbn [fst snd].
  destruct (afterLoad_facts SetConditions r cr s0) as (t0 & c & d & s1 & Heq & _ & _ & Hout).
  rewrite Heq. cbn [fst snd]. rewrite report_eq. cbn [fst snd].
  exists (Called (CallGet (ReqNamespacedName req) (newParentResource r)) None
            :: t0 ++ logOf (snd (SetConditions cr [c]))),
    c, d, (fst (StatusUpdate (fst (SetConditions cr [c])) s1)).
  split; [cbn [app]; now rewrite <- app_assoc|]. split; [reflexivity|].
  destruct Hout as [Hok|(label & Hlabel & e & -> & ->)]; [left; exact Hok|].
  right. exists label, e. repeat split; auto.
Qed.

(** X5.  The children are fetched in the order the patcher chain produced
    them, each once, right after the parent: the fetches of a cycle are the
    parent followed by a prefix of the children, every child looked up by
    its own namespace and name. *)
Theorem Reconcile_fetch_order (r : TemplatingReconciler) (req : Request)
    (s s0 : S) cr children0 children :
  Get (ReqNamespacedName req) (newParentResource r) s = ((cr, None), s0) ->
  WasDeleted cr = false ->
  templatingEngine r cr = (children0, None) ->
  ChainPatch (childResourcePatcher r) cr children0 = (children, None) ->
  exists n,
    fetches (snd (reconcile r req s)) =
      (ReqNamespacedName req, newParentResource r)
        :: map (fun o => (childKey o, o)) (firstn n children).
Proof.
  intros Hget Hdel Hrun Hchain.
  rewrite (Reconcile_loaded SetConditions _ _ _ Hget Hdel). cbn [snd].
  unfold afterLoad. rewrite Hrun, Hchain.
  destruct (applyChildren_facts SetConditions r cr children s0)
    as (t0 & c & d & s1 & n & Heq & _ & _ & _ & Hf & _).
  rewrite Heq. cbn [snd]. rewrite report_eq. cbn [snd].
  exists n. change (Called ?x ?y :: ?l) with ([Called x y] ++ l).
  rewrite !fetches_app, Hf, fetches_logOf. cbn. now rewrite app_nil_r.
Qed.

(** X6.  The only store calls of a cycle are [Get], [Create], merge patches
    that carry a document, and [Status().Update]: the reconciler never
    updates an object as a whole, never lists, and never patches a status. *)
Theorem Reconcile_call_kinds (r : TemplatingReconciler) (req : Request) (s : S) :
  forallb isReconcilerCall (snd (reconcile r req s)) = true.
Proof.
  destruct (Get (ReqNamespacedName req) (newParentResource r) s) as [[cr [e|]] s0] eqn:Hget.
  - rewrite (Reconcile_get_failed SetConditions _ _ _ Hget). reflexivity.
  - destruct (WasDeleted cr) eqn:Hdel.
    + rewrite (Reconcile_was_deleted SetConditions _ _ _ Hget Hdel). reflexivity.
    + rewrite (Reconcile_loaded SetConditions _ _ _ Hget Hdel). cbn [snd].
      destruct (afterLoad_facts SetConditions r cr s0) as (t0 & c & d & s1 & Heq & Hk & _).
      rewrite Heq. cbn [snd]. rewrite report_eq. cbn [snd].
      cbn [forallb isReconcilerCall andb].
      rewrite !forallb_app, Hk, calls_logOf. reflexivity.
Qed.

Lemma written_app (a b : list Event) : written (a ++ b) = written a ++ written b.
Proof. unfold written. apply flat_map_app. Qed.

Lemma report_written (cr : Unstructured) (c : Condition) (d : Z) (s : S) :
  written (snd (report SetConditions cr c d s)) = [] /\
  count isCreateOrPatch (snd (report SetConditions cr c d s)) = 0%nat.
Proof.
  rewrite report_eq. cbn [snd]. rewrite written_app, count_app.
  destruct (snd (SetConditions cr [c])); split; reflexivity.
Qed.

(** One [Apply] writes its child once when it succeeds, and at most once
    when it fails. *)
Lemma Apply_written (o : Unstructured) (s s' : S) res t :
  Apply o s = (res, s', t) ->
  count isCreateOrPatch t = length (written t) /\
  (res = None -> written t = [o]) /\
  (written t = [] \/ written t = [o]).
Proof.
  intros Hrun.
  destruct (Apply_inv o s) as (existing & err & s1 & Hget & Hcases).
  destruct Hcases as [(Hnf & cerr & s2 & Hc & Heq)
                     |[(e & -> & Hnf & Heq)
                     |[(-> & raw & e & Hm & Heq)
                     |(-> & raw & perr & s2 & Hm & Hp & Heq)]]];
    rewrite Heq in Hrun; inversion Hrun; subst; clear Hrun;
    try rewrite (Marshal_ok _ Hm); cbn; repeat split; auto; discriminate.
Qed.

Lemma applyChildren_written (r : TemplatingReconciler) (cr : Unstructured)
    (l : list Unstructured) (s : S) :
  exists k,
    written (snd (applyChildren SetConditions r cr l s)) = firstn k l /\
    count isCreateOrPatch (snd (applyChildren SetConditions r cr l s))
      = length (written (snd (applyChildren SetConditions r cr l s))).
Proof.
  revert s. induction l as [|o rest IH]; intros s.
  - exists 0%nat. cbn [applyChildren firstn].
    destruct (report_written cr ReconcileSuccess (longWait r) s) as [-> ->].
    split; reflexivity.
  - cbn [applyChildren]. unfold bind.
    destruct (Apply o s) as [[res s1] t1] eqn:Happly.
    destruct (Apply_written _ _ Happly) as (Hlen & Hok & Hone).
    destruct res as [e|].
    + pose proof (report_written cr (ReconcileError (withMessage e (applyMessage o)))
                    (shortWait r) s1) as [Hw Hc].
      destruct (report _ _ _ _ s1) as [[res s4] t4]. cbn [snd] in *.
      rewrite written_app, count_app, Hw, Hc, app_nil_r, Hlen.
      destruct Hone as [->| ->].
      * exists 0%nat. split; reflexivity.
      * exists 1%nat. split; reflexivity.
    + destruct (IH s1) as (k & Hw & Hc).
      destruct (applyChildren SetConditions r cr rest s1) as [[res s4] t4].
      cbn [snd] in *.
      rewrite written_app, count_app, (Hok eq_refl), Hw, Hc, Hlen, (Hok eq_refl).
      exists (Datatypes.S k). rewrite Hw. split; reflexivity.
Qed.

(** X7.  A cycle writes each child at most once, and in order: the objects
    it creates or patches, taken in the order of the calls, are a prefix of
    the output of the patcher chain, one call per object. *)
Theorem Reconcile_one_write_per_child (r : TemplatingReconciler) (req : Request)
    (s s0 : S) cr children0 children :
  Get (ReqNamespacedName req) (newParentResource r) s = ((cr, None), s0) ->
  WasDeleted cr = false ->
  templatingEngine r cr = (children0, None) ->
  ChainPatch (childResourcePatcher r) cr children0 = (children, None) ->
  exists k,
    written (snd (reconcile r req s)) = firstn k children /\
    count isCreateOrPatch (snd (reconcile r req s))
      = length (written (snd (reconcile r req s))) /\
    (count isCreateOrPatch (snd (reconcile r req s)) <= length children)%nat.
Proof.
  intros Hget Hdel Hrun Hchain.
  rewrite (Reconcile_loaded SetConditions _ _ _ Hget Hdel). cbn [snd].
  unfold afterLoad. rewrite Hrun, Hchain.
  destruct (applyChildren_written r cr children s0) as (k & Hw & Hc).
  exists k.
  change (Called ?x ?y :: ?l) with ([Called x y] ++ l).
  rewrite written_app, count_app, Hw, Hc, Hw. cbn [written flat_map app count filter
    isCreateOrPatch length Nat.add].
  repeat split. rewrite length_firstn. lia.
Qed.

(** X10.  A cycle logs at most one line, and only when [SetConditions]
    failed on the loaded parent: the line is the message of that error. *)
Theorem Reconcile_logs (r : TemplatingReconciler) (req : Request) (s : S) :
  (count isLog (snd (reconcile r req s)) <= 1)%nat /\
  (forall m, In (Logged m) (snd (reconcile r req s)) ->
     exists c e,
       snd (SetConditions
              (fst (fst (Get (ReqNamespacedName req) (newParentResource r) s))) [c])
         = Some e /\
       m = Error e).
Proof.
  destruct (Get (ReqNamespacedName req) (newParentResource r) s) as [[cr [e|]] s0] eqn:Hget.
  - rewrite (Reconcile_get_failed SetConditions _ _ _ Hget). cbn. split; [lia|].
    intros m [H|[]]; discriminate.
  - destruct (WasDeleted cr) eqn:Hdel.
    + rewrite (Reconcile_was_deleted SetConditions _ _ _ Hget Hdel). cbn. split; [lia|].
      intros m [H|[]]; discriminate.
    + rewrite (Reconcile_loaded SetConditions _ _ _ Hget Hdel). cbn [fst snd].
      destruct (afterLoad_facts SetConditions r cr s0) as (t0 & c & d & s1 & Heq & _ & Hl & _).
      rewrite Heq. cbn [snd]. rewrite report_eq. cbn [snd].
      change (Called ?x ?y :: ?l) with ([Called x y] ++ l).
      split.
      * rewrite !count_app, Hl. destruct (snd (SetConditions cr [c])); cbn; lia.
      * intros m Hin. apply in_app_or in Hin. destruct Hin as [[H|[]]|Hin]; [discriminate|].
        apply in_app_or in Hin. destruct Hin as [Hin|Hin].
        { apply (count_none _ _ Hl) in Hin. discriminate. }
        apply in_app_or in Hin. destruct Hin as [Hin|[H|[]]]; [|discriminate].
        exists c. destruct (snd (SetConditions cr [c])) as [e|]; [|destruct Hin].
        exists e. destruct Hin as [H|[]]. inversion H. split; reflexivity.
Qed.

Lemma Apply_writes (o : Unstructured) (s : S) (l : list Unstructured) :
  In o l -> forall ev, In ev (snd (Apply o s)) -> writesOneOf l ev.
Proof.
  intros Hin ev Hev.
  destruct (Apply_inv o s) as (existing & err & s1 & Hget & Hcases).
  destruct Hcases as [(Hnf & cerr & s2 & Hc & Heq)
                     |[(e & -> & Hnf & Heq)
                     |[(-> & raw & e & Hm & Heq)
                     |(-> & raw & perr & s2 & Hm & Hp & Heq)]]];
    rewrite Heq in Hev; cbn [snd] in Hev.
  - destruct Hev as [<-|[<-|[]]]; cbn; auto.
  - destruct Hev as [<-|[]]; cbn; auto.
  - destruct Hev as [<-|[]]; cbn; auto.
  - destruct Hev as [<-|[<-|[]]]; cbn; auto.
    exists o. split; [exact Hin|]. now rewrite (Marshal_ok _ Hm).
Qed.

Lemma report_writes (cr : Unstructured) (c : Condition) (d : Z) (s : S)
    (l : list Unstructured) :
  forall ev, In ev (snd (report SetConditions cr c d s)) -> writesOneOf l ev.
Proof.
  intros ev Hev. rewrite report_eq in Hev. cbn [snd] in Hev.
  apply in_app_or in Hev. destruct Hev as [Hev|[<-|[]]]; [|exact I].
  destruct (snd (SetConditions cr [c])); [destruct Hev as [<-|[]]; exact I|destruct Hev].
Qed.

Lemma applyChildren_writes (r : TemplatingReconciler) (cr : Unstructured)
    (all l : list Unstructured) (s : S) :
  incl l all ->
  forall ev, In ev (snd (applyChildren SetConditions r cr l s)) -> writesOneOf all ev.
Proof.
  revert s. induction l as [|o rest IH]; intros s Hincl ev Hev.
  - cbn [applyChildren] in Hev. eapply report_writes; eauto.
  - cbn [applyChildren] in Hev. unfold bind at 1 in Hev.
    pose proof (Apply_writes o s all (Hincl o (or_introl eq_refl))) as Hfirst.
    destruct (Apply o s) as [[res s1] t1]. cbn [snd] in Hfirst.
    destruct res as [e|].
    + destruct (report _ _ _ _ s1) as [[res s4] t4] eqn:Hrep. cbn [snd] in Hev.
      apply in_app_or in Hev. destruct Hev as [Hev|Hev]; [now apply Hfirst|].
      apply (report_writes cr (ReconcileError (withMessage e (applyMessage o)))
               (shortWait r) s1 all). now rewrite Hrep.
    + destruct (applyChildren SetConditions r cr rest s1) as [[res s4] t4] eqn:Hrest.
      cbn [snd] in Hev.
      apply in_app_or in Hev. destruct Hev as [Hev|Hev]; [now apply Hfirst|].
      apply (IH s1); [intros x Hx; apply Hincl; now right|]. now rewrite Hrest.
Qed.

(** X14.  What a cycle writes to the store, beside the status, comes from
    the output of the patcher chain: every object created is one of the
    patched children, and every patch is the merge patch of the
    serialization of one of them.  The children as the engine rendered them,
    before patching, never reach the store. *)
Theorem Reconcile_writes_patched_children (r : TemplatingReconciler) (req : Request)
    (s s0 : S) cr children0 children :
  Get (ReqNamespacedName req) (newParentResource r) s = ((cr, None), s0) ->
  WasDeleted cr = false ->
  templatingEngine r cr = (children0, None) ->
  ChainPatch (childResourcePatcher r) cr children0 = (children, None) ->
  (forall o out,
     In (Called (CallCreate o) out) (snd (reconcile r req s)) -> In o children) /\
  (forall target p out,
     In (Called (CallPatch target p) out) (snd (reconcile r req s)) ->
     exists o, In o children /\ p = ConstantPatch MergePatchType (Some (mkRawJSON o))).
Proof.
  intros Hget Hdel Hrun Hchain.
  assert (Hall : forall ev, In ev (snd (reconcile r req s)) -> writesOneOf children ev).
  { rewrite (Reconcile_loaded SetConditions _ _ _ Hget Hdel). cbn [snd].
    unfold afterLoad. rewrite Hrun, Hchain.
    intros ev [<-|Hev]; [exact I|].
    eapply applyChildren_writes; [apply incl_refl|exact Hev]. }
  split.
  - intros o out Hin. exact (Hall _ Hin).
  - intros target p out Hin. exact (Hall _ Hin).
Qed.

End Further.

(** * Further properties of Apply *)

Section FurtherApply.

Context {S : Type} {kube : Client S}.

(** X8.  [Apply] writes only what its fetch calls for.  It creates only when
    the fetch reported not-found, and what it creates is the child as given.
    It patches only when the fetch returned no error; the target is the
    object the fetch returned and the patch is a merge patch carrying the
    serialized child.  The outcome of the write is what [Apply] returns, the
    create error under its label and the patch error as it is. *)
Theorem Apply_write_follows_fetch (o : Unstructured) (s : S) :
  let fetched := fst (Get (childKey o) o s) in
  (forall o' out,
     In (Called (CallCreate o') out) (snd (Apply o s)) ->
     o' = o /\
     IsNotFound (snd fetched) = true /\
     fst (fst (Apply o s)) = Wrap out errCreateChildResource) /\
  (forall target p out,
     In (Called (CallPatch target p) out) (snd (Apply o s)) ->
     snd fetched = None /\
     target = fst fetched /\
     p = ConstantPatch MergePatchType (Some (mkRawJSON o)) /\
     fst (fst (Apply o s)) = out).
Proof.
  cbv zeta.
  destruct (Apply_inv o s) as (existing & err & s1 & Hget & Hcases).
  rewrite Hget. cbn [fst snd].
  destruct Hcases as [(Hnf & cerr & s2 & Hc & Heq)
                     |[(e & -> & Hnf & Heq)
                     |[(-> & raw & e & Hm & Heq)
                     |(-> & raw & perr & s2 & Hm & Hp & Heq)]]];
    rewrite Heq; cbn [fst snd]; split.
  - intros o' out [H|[H|[]]]; [discriminate|]. inversion H; subst. repeat split; auto.
  - intros target p out [H|[H|[]]]; discriminate.
  - intros o' out [H|[]]; discriminate.
  - intros target p out [H|[]]; discriminate.
  - intros o' out [H|[]]; discriminate.
  - intros target p out [H|[]]; discriminate.
  - intros o' out [H|[H|[]]]; discriminate.
  - intros target p out [H|[H|[]]]; [discriminate|]. inversion H; subst.
    rewrite (Marshal_ok _ Hm). repeat split; auto.
Qed.

(** X9.  [Apply] returns no error exactly when the store accepted a create
    or a patch: an [Apply] that succeeds has written once, and one that
    fails has written nothing.  Either way it makes one fetch, by the
    namespace and name of the child, and at most one more call. *)
Theorem Apply_succeeds_iff_written (o : Unstructured) (s : S) :
  (fst (fst (Apply o s)) = None <-> count isAcceptedWrite (snd (Apply o s)) = 1%nat) /\
  (fst (fst (Apply o s)) <> None -> count isAcceptedWrite (snd (Apply o s)) = 0%nat) /\
  fetches (snd (Apply o s)) = [(childKey o, o)] /\
  (length (snd (Apply o s)) <= 2)%nat.
Proof.
  destruct (Apply o s) as [[res s'] t] eqn:Happly. cbn [fst snd].
  destruct (Apply_trace _ _ Happly) as (_ & _ & _ & Hok & Hfail).
  destruct (Apply_calls _ _ Happly) as (_ & _ & Hf & Hlen).
  repeat split; auto.
  - intros Hres. apply (Hok Hres).
  - intros Hcount. destruct res as [e|]; [|reflexivity].
    rewrite Hfail in Hcount by discriminate. discriminate.
Qed.

End FurtherApply.

(** * The constructor and its options *)

Lemma options_keep {A : Type} (field : TemplatingReconciler -> A)
    (options : list TemplatingReconcilerOption) (r : TemplatingReconciler) :
  Forall (keeps field) options ->
  field (fold_left (fun r opt => opt r) options r) = field r.
Proof.
  intros Hall. revert r. induction Hall as [|opt options Hopt _ IH]; intros r.
  - reflexivity.
  - cbn [fold_left]. rewrite IH. apply Hopt.
Qed.


Lemma Provided_keeps_parent (opt : TemplatingReconcilerOption) :
  Provided opt -> keeps newParentResource opt /\ keeps resourcePath opt.
Proof. intros []; split; intros r; reflexivity. Qed.

Section FurtherConstructor.

Variable NopTemplatingEngine : TemplatingEngine.
Variable defaultPatchers : ChildResourcePatcherChain.

#[local] Abbreviation new := (NewTemplatingReconciler NopTemplatingEngine defaultPatchers).



(** X13.  No option of the package changes what the reconciler reconciles:
    whatever options it is built with, its parent is the empty object of the
    kind given to the constructor, and every cycle starts with the fetch of
    that object by the requested key. *)
Theorem NewTemplatingReconciler_parent_kind (of_ : GroupVersionKind)
    (options : list TemplatingReconcilerOption) :
  Forall Provided options ->
  newParentResource (new of_ options) = blankParent of_ /\
  forall (S : Type) (kube : Client S)
         (SetConditions : Unstructured -> list Condition -> Unstructured * option error)
         (req : Request) (s : S),
  exists out rest,
    snd (Reconcile SetConditions (new of_ options) req s) =
      Called (CallGet (ReqNamespacedName req) (blankParent of_)) out :: rest.
Proof.
  intros Hall.
  assert (Hnr : newParentResource (new of_ options) = blankParent of_).
  { unfold NewTemplatingReconciler. rewrite options_keep; [reflexivity|].
    eapply Forall_impl; [|exact Hall]. intros opt Hopt. now apply Provided_keeps_parent. }
  split; [exact Hnr|]. intros S kube SetConditions req s.
  destruct (Get (ReqNamespacedName req) (newParentResource (new of_ options)) s)
    as [[cr [e|]] s0] eqn:Hget.
  - rewrite (Reconcile_get_failed SetConditions _ _ _ Hget), Hnr. cbn [snd]. eauto.
  - destruct (WasDeleted cr) eqn:Hdel.
    + rewrite (Reconcile_was_deleted SetConditions _ _ _ Hget Hdel), Hnr. cbn [snd]. eauto.
    + rewrite (Reconcile_loaded SetConditions _ _ _ Hget Hdel), Hnr. cbn [snd]. eauto.
Qed.

End FurtherConstructor.

(** * The further properties at concrete inputs *)

Module MoreRuns.

Import Sample.

#[local] Abbreviation memReconcile :=
  (Reconcile (S := MemStore.Store) SetConditionsModel).
#[local] Abbreviation scriptReconcile :=
  (Reconcile (S := Scripted.Script) SetConditionsModel).

Lemma Reconcile_success_witness :
  count isAcceptedWrite
    (snd (memReconcile (reconciler [childA; childB]) request [parent])) = 2%nat /\
  fst (fst (fst (memReconcile (reconciler []) request [parent])))
    = mkResult false defaultLongWait.
Proof.
  split.
  - exact (proj1 (proj2
      (@Reconcile_success MemStore.Store MemStore.client SetConditionsModel
         (reconciler [childA; childB]) request [parent] [parent] [parent; childA; childB]
         parent [childA; childB] [childA; childB] _
         eq_refl eq_refl eq_refl eq_refl
         (@AppliedCons MemStore.Store MemStore.client childA [childB] [parent]
            [parent; childA] _ [parent; childA; childB] _ eq_refl
            (@AppliedCons MemStore.Store MemStore.client childB [] [parent; childA]
               [parent; childA; childB] _ [parent; childA; childB] [] eq_refl
               (AppliedNil [parent; childA; childB])))))).
  - exact (f_equal (fun x => fst (fst (fst x))) (proj1
      (@Reconcile_success MemStore.Store MemStore.client SetConditionsModel
         (reconciler []) request [parent] [parent] [parent]
         parent [] [] [] eq_refl eq_refl eq_refl eq_refl (AppliedNil [parent])))).
Defined.

Lemma Reconcile_load_error_witness :
  scriptReconcile (reconciler [childA]) request [Scripted.Respond None (Some errRefused)] =
    (mkResult false 0, Some (withMessage errRefused errGetResource), [],
     [Called fetchParent (Some errRefused)]).
Proof.
  exact (@Reconcile_load_error Scripted.Script Scripted.client SetConditionsModel
           (reconciler [childA]) request [Scripted.Respond None (Some errRefused)] []
           (newParentResource (reconciler [childA])) errRefused eq_refl eq_refl).
Defined.

Lemma Reconcile_error_origin_witness :
  let script : Scripted.Script :=
    [Scripted.Respond (Some parent) None; Scripted.Respond None (Some errRefused)] in
  (exists e,
     snd (fst (Get (ReqNamespacedName request) (newParentResource failingEngine) script))
       = Some e /\
     IsNotFound (Some e) = false /\
     withMessage errRefused errUpdateResourceStatus = withMessage e errGetResource) \/
  (exists e cr',
     In (Called (CallStatusUpdate cr') (Some e))
        (snd (scriptReconcile failingEngine request script)) /\
     withMessage errRefused errUpdateResourceStatus
       = withMessage e errUpdateResourceStatus).
Proof.
  exact (@Reconcile_error_origin Scripted.Script Scripted.client SetConditionsModel
           failingEngine request
           [Scripted.Respond (Some parent) None; Scripted.Respond None (Some errRefused)]
           (withMessage errRefused errUpdateResourceStatus) eq_refl).
Defined.

Lemma Reconcile_condition_and_wait_witness :
  exists t0 c d out,
    snd (memReconcile failingChain request [parent]) =
      t0 ++ [Called (CallStatusUpdate (fst (SetConditionsModel parent [c]))) out] /\
    fst (fst (fst (memReconcile failingChain request [parent]))) = mkResult false d /\
    ((c = ReconcileSuccess /\ d = longWait failingChain) \/
     (exists label e,
        phaseLabel label /\
        c = ReconcileError (withMessage e label) /\
        Message c = (label ++ ": " ++ Error e)%string /\
        d = shortWait failingChain)).
Proof.
  exact (@Reconcile_condition_and_wait MemStore.Store MemStore.client SetConditionsModel
           failingChain request [parent] [parent] parent eq_refl eq_refl).
Defined.

Lemma Reconcile_fetch_order_witness :
  exists n,
    fetches (snd (memReconcile (reconciler [childA; childNaN; childB]) request
                    [parent; storedC])) =
      (ReqNamespacedName request, newParentResource (reconciler [childA; childNaN; childB]))
        :: map (fun o => (childKey o, o)) (firstn n [childA; childNaN; childB]).
Proof.
  exact (@Reconcile_fetch_order MemStore.Store MemStore.client SetConditionsModel
           (reconciler [childA; childNaN; childB]) request [parent; storedC]
           [parent; storedC] parent [childA; childNaN; childB] [childA; childNaN; childB]
           eq_refl eq_refl eq_refl eq_refl).
Defined.

Lemma Reconcile_one_write_per_child_witness :
  exists k,
    written (snd (memReconcile (reconciler [childA; childB]) request [parent; childA]))
      = firstn k [childA; childB] /\
    count isCreateOrPatch
      (snd (memReconcile (reconciler [childA; childB]) request [parent; childA]))
      = length (written
          (snd (memReconcile (reconciler [childA; childB]) request [parent; childA]))) /\
    (count isCreateOrPatch
       (snd (memReconcile (reconciler [childA; childB]) request [parent; childA]))
     <= length [childA; childB])%nat.
Proof.
  exact (@Reconcile_one_write_per_child MemStore.Store MemStore.client SetConditionsModel
           (reconciler [childA; childB]) request [parent; childA] [parent; childA]
           parent [childA; childB] [childA; childB] eq_refl eq_refl eq_refl eq_refl).
Defined.

Lemma Reconcile_logs_witness :
  exists c e,
    snd (brokenSetConditions
           (fst (fst (Get (ReqNamespacedName request) (newParentResource failingEngine)
                        ([parent] : MemStore.Store)))) [c]) = Some e /\
    "status is malformed" = Error e.
Proof.
  refine (proj2 (@Reconcile_logs MemStore.Store MemStore.client brokenSetConditions
                   failingEngine request [parent]) "status is malformed" _).
  right. left. reflexivity.
Defined.

Lemma Apply_write_follows_fetch_witness :
  (childA = childA /\
   IsNotFound (snd (fst (Get (childKey childA) childA ([] : MemStore.Store)))) = true /\
   fst (fst (Apply childA ([] : MemStore.Store))) = Wrap None errCreateChildResource) /\
  (snd (fst (Get (childKey childA) childA
                   ([Scripted.Respond (Some childB) None] : Scripted.Script))) = None /\
   childB = fst (fst (Get (childKey childA) childA
                        ([Scripted.Respond (Some childB) None] : Scripted.Script))) /\
   mergePatchOf childA = ConstantPatch MergePatchType (Some (mkRawJSON childA)) /\
   fst (fst (Apply childA ([Scripted.Respond (Some childB) None] : Scripted.Script)))
     = None).
Proof.
  split.
  - refine (proj1 (@Apply_write_follows_fetch MemStore.Store MemStore.client childA [])
              childA None _).
    right. left. reflexivity.
  - refine (proj2 (@Apply_write_follows_fetch Scripted.Script Scripted.client childA
                     [Scripted.Respond (Some childB) None])
              childB (mergePatchOf childA) None _).
    right. left. reflexivity.
Defined.

Lemma Apply_succeeds_iff_written_witness :
  count isAcceptedWrite (snd (Apply childA ([] : MemStore.Store))) = 1%nat /\
  count isAcceptedWrite
    (snd (Apply childA ([Scripted.Respond None (Some errGone);
                         Scripted.Respond None (Some errRefused)] : Scripted.Script)))
    = 0%nat.
Proof.
  split.
  - exact (proj1 (proj1 (@Apply_succeeds_iff_written MemStore.Store MemStore.client
                           childA [])) eq_refl).
  - refine (proj1 (proj2 (@Apply_succeeds_iff_written Scripted.Script Scripted.client
                            childA [Scripted.Respond None (Some errGone);
                                    Scripted.Respond None (Some errRefused)])) _).
    discriminate.
Defined.



Lemma NewTemplatingReconciler_parent_kind_witness :
  newParentResource Built.reconciler = blankParent wordpress.
Proof.
  refine (proj1 (@NewTemplatingReconciler_parent_kind Built.nopEngine Built.defaults
                   wordpress Built.options _)).
  repeat constructor.
Defined.

Lemma Reconcile_writes_patched_children_witness :
  In childB [childA; childB].
Proof.
  refine (proj1 (@Reconcile_writes_patched_children MemStore.Store MemStore.client
                   SetConditionsModel (reconciler [childA; childB]) request
                   [parent; childA] [parent; childA] parent
                   [childA; childB] [childA; childB] eq_refl eq_refl eq_refl eq_refl)
            childB None _).
  do 4 right. left. reflexivity.
Defined.

End MoreRuns.
